(** * PhilPSX: the GPU pixel shaders and the DMA arbiter's public header

    A shallow embedding of the GLSL programs held in
    [src/headers/ogl_shaders/*.h] and of the declarations of
    [src/headers/DMAArbiter.h], followed by the properties that the
    specification states about them.

    GLSL's [int] and [uint] are 32 bits wide.  Both are carried by [Z]; the
    wrap-around of every arithmetic operation is written out with [to_int]
    and [to_uint].  An image unit ([uimage2D]) is a finite map from texel
    coordinates to [uvec4] values together with its extent. *)

From Stdlib Require Import ZArith Lia Bool List Floats.
From stdpp Require Import gmap strings.

Local Open Scope Z_scope.

(** ** GLSL scalars and vectors *)

Module GLSL.

(** The value of a 32-bit pattern read as [uint]. *)
Definition to_uint (z : Z) : Z := z mod 2 ^ 32.

(** The value of a 32-bit pattern read as (two's complement) [int]. *)
Definition to_int (z : Z) : Z := (z + 2 ^ 31) mod 2 ^ 32 - 2 ^ 31.

(** [int] arithmetic: the low 32 bits of the exact result.  [/] truncates
    towards zero and [%] takes the sign of the dividend, as on every GLSL
    implementation for the non-negative operands the shaders use. *)
Definition int_add (m n : Z) : Z := to_int (m + n).
Definition int_sub (m n : Z) : Z := to_int (m - n).
Definition int_div (m n : Z) : Z := to_int (Z.quot m n).
Definition int_mod (m n : Z) : Z := Z.rem m n.

(** [uint >> k]: a logical shift. *)
Definition uint_shr (m k : Z) : Z := Z.shiftr m k.

End GLSL.

Module ivec2.
Record t : Type := mk { x : Z; y : Z }.
End ivec2.

Module ivec3.
Record t : Type := mk { r : Z; g : Z; b : Z }.
End ivec3.

Module uvec4.
Record t : Type := mk { r : Z; g : Z; b : Z; a : Z }.

Definition set_r (p : t) (v : Z) : t := mk v (g p) (b p) (a p).
Definition set_g (p : t) (v : Z) : t := mk (r p) v (b p) (a p).
Definition set_b (p : t) (v : Z) : t := mk (r p) (g p) v (a p).
Definition set_a (p : t) (v : Z) : t := mk (r p) (g p) (b p) v.

(** Every component fits the 8 bits of an [rgba8ui] texel. *)
Definition fits8 (p : t) : Prop :=
  0 <= r p <= 255 /\ 0 <= g p <= 255 /\ 0 <= b p <= 255 /\ 0 <= a p <= 255.
End uvec4.

(** ** Image units

    [layout (rgba8ui) uniform uimage2D]: a [width] by [height] grid of
    texels.  [imageLoad] outside the grid yields zeros and [imageStore]
    outside the grid is discarded (OpenGL 4.5, section 8.26).  A texel that
    was never stored reads as zeros.

    The shaders only ever store pixels whose components fit 8 bits (lemmas
    [shaded_pixel_fits8] and [copied_pixel_fits8] below), so the conversion
    of a stored [uvec4] to the [rgba8ui] format is the identity and
    [imageStore] keeps the value as it is. *)

Module uimage2D.
Record t : Type := mk {
  width : Z;
  height : Z;
  texels : gmap (Z * Z) uvec4.t
}.

Definition zero : uvec4.t := uvec4.mk 0 0 0 0.

Definition inside (img : t) (P : ivec2.t) : bool :=
  (0 <=? ivec2.x P) && (ivec2.x P <? width img) &&
  (0 <=? ivec2.y P) && (ivec2.y P <? height img).

Definition imageLoad (img : t) (P : ivec2.t) : uvec4.t :=
  if inside img P
  then default zero (texels img !! (ivec2.x P, ivec2.y P))
  else zero.

Definition imageStore (img : t) (P : ivec2.t) (data : uvec4.t) : t :=
  if inside img P
  then mk (width img) (height img)
          (<[(ivec2.x P, ivec2.y P) := data]> (texels img))
  else img.

(** Every texel of the image fits 8 bits, as [rgba8ui] guarantees. *)
Definition wf (img : t) : Prop :=
  forall k p, texels img !! k = Some p -> uvec4.fits8 p.
End uimage2D.

(** ** ShadedPolygon_FragmentShader1.h *)

Module ShadedPolygon_FragmentShader1.
Import GLSL uimage2D.

(** The uniforms at locations 5 to 13. *)
Record uniforms : Type := mk_uniforms {
  dither : Z;
  semiTransparencyEnabled : Z;
  semiTransparencyMode : Z;
  setMask : Z;
  checkMask : Z;
  drawTopLeftX : Z;
  drawTopLeftY : Z;
  drawBottomRightX : Z;
  drawBottomRightY : Z
}.

(** [bool inDrawingArea(ivec2 pixelCoord)] *)
Definition inDrawingArea (u : uniforms) (pixelCoord : ivec2.t) : bool :=
  let retVal := false in
  if (ivec2.x pixelCoord >=? drawTopLeftX u) &&
     (ivec2.x pixelCoord <=? drawBottomRightX u) &&
     (ivec2.y pixelCoord <=? drawTopLeftY u) &&
     (ivec2.y pixelCoord >=? drawBottomRightY u)
  then true
  else retVal.

(** [int ditherArray[4][4]], as the sixteen assignments fill it.  An index
    outside 0..3 is undefined in GLSL; it cannot arise for a fragment
    coordinate with [0 <= x] and [y <= 511], and reads as 0 here. *)
Definition ditherArray (column row : Z) : Z :=
  match column, row with
  | 0, 0 => -4 | 0, 1 => 2  | 0, 2 => -3 | 0, 3 => 3
  | 1, 0 => 0  | 1, 1 => -2 | 1, 2 => 1  | 1, 3 => -1
  | 2, 0 => -3 | 2, 1 => 3  | 2, 2 => -4 | 2, 3 => 2
  | 3, 0 => 1  | 3, 1 => -1 | 3, 2 => 0  | 3, 3 => -2
  | _, _ => 0
  end.

Definition ditherColumn (tempDrawCoord : ivec2.t) : Z :=
  int_mod (ivec2.x tempDrawCoord) 4.

Definition ditherRow (tempDrawCoord : ivec2.t) : Z :=
  int_mod (int_sub 511 (ivec2.y tempDrawCoord)) 4.

(** One channel of the dither block: [ditherPixel.c] is the channel read
    back as [int], the matrix entry is added, the sum is clamped to
    0..0xFF and stored back as [uint]. *)
Definition ditherChannel (tempDrawCoord : ivec2.t) (c : Z) : Z :=
  let ditherPixel := to_int c in
  let ditherPixel :=
    int_add ditherPixel
            (ditherArray (ditherColumn tempDrawCoord) (ditherRow tempDrawCoord)) in
  let ditherPixel :=
    if ditherPixel <? 0 then 0
    else if ditherPixel >? 0xFF then 0xFF
    else ditherPixel in
  to_uint ditherPixel.

(** One channel of "Restore colours to original 15-bit format". *)
Definition quantize (c : Z) : Z :=
  let c := uint_shr c 3 in
  if c >? 0x1F then 0x1F else c.

(** One channel of the [switch (semiTransparencyMode)]: there is no
    [default], any other mode leaves the new value as it is. *)
Definition blend (mode old new : Z) : Z :=
  match mode with
  | 0 => int_add (int_div old 2) (int_div new 2)
  | 1 => int_add old new
  | 2 => int_sub old new
  | 3 => int_add old (int_div new 4)
  | _ => new
  end.

(** One channel of "Saturate pixel". *)
Definition saturate (new : Z) : Z :=
  if new <? 0 then 0
  else if new >? 31 then 31
  else new.

(** One channel of the semi-transparency block, from the [uint] channels
    of [vramPixel] and [texPixel] to the [uint] stored into [texPixel]. *)
Definition semiTransparent (mode vramC texC : Z) : Z :=
  to_uint (saturate (blend mode (to_int vramC) (to_int texC))).

(** The value of [texPixel] when [main] reaches the store.
    [interpolated_colour] holds the components after [int( )]. *)
Definition texPixel (u : uniforms) (tempDrawCoord : ivec2.t)
    (interpolated_colour : ivec3.t) (vramPixel : uvec4.t) : uvec4.t :=
  let texPixel := uvec4.mk 0 0 0 0 in
  let texPixel := uvec4.set_r texPixel (to_uint (ivec3.r interpolated_colour)) in
  let texPixel := uvec4.set_g texPixel (to_uint (ivec3.g interpolated_colour)) in
  let texPixel := uvec4.set_b texPixel (to_uint (ivec3.b interpolated_colour)) in
  let texPixel :=
    if dither u =? 1
    then uvec4.mk (ditherChannel tempDrawCoord (uvec4.r texPixel))
                  (ditherChannel tempDrawCoord (uvec4.g texPixel))
                  (ditherChannel tempDrawCoord (uvec4.b texPixel))
                  (uvec4.a texPixel)
    else texPixel in
  let texPixel := uvec4.set_r texPixel (quantize (uvec4.r texPixel)) in
  let texPixel := uvec4.set_g texPixel (quantize (uvec4.g texPixel)) in
  let texPixel := uvec4.set_b texPixel (quantize (uvec4.b texPixel)) in
  let texPixel :=
    if semiTransparencyEnabled u =? 1
    then uvec4.mk
           (semiTransparent (semiTransparencyMode u) (uvec4.r vramPixel) (uvec4.r texPixel))
           (semiTransparent (semiTransparencyMode u) (uvec4.g vramPixel) (uvec4.g texPixel))
           (semiTransparent (semiTransparencyMode u) (uvec4.b vramPixel) (uvec4.b texPixel))
           (uvec4.a texPixel)
    else texPixel in
  if setMask u =? 1 then uvec4.set_a texPixel 0x1 else texPixel.

(** The path of one colour channel through [texPixel], read off the
    source channel by channel: [incoming] is the channel of [texPixel]
    before the semi-transparency block (the front value), [outgoing] the
    channel after it. *)
Definition incoming (u : uniforms) (tempDrawCoord : ivec2.t) (colour : Z) : Z :=
  let c := to_uint colour in
  let c := if dither u =? 1 then ditherChannel tempDrawCoord c else c in
  quantize c.

Definition outgoing (u : uniforms) (vramC texC : Z) : Z :=
  if semiTransparencyEnabled u =? 1
  then semiTransparent (semiTransparencyMode u) vramC texC
  else texC.

(** The guard of the [imageStore] at the end of [main]. *)
Definition stores (u : uniforms) (tempDrawCoord : ivec2.t) (vramPixel : uvec4.t) : bool :=
  let inArea := inDrawingArea u tempDrawCoord in
  if checkMask u =? 1
  then negb (uvec4.a vramPixel =? 1) && inArea
  else inArea.

(** [void main(void)]: the effect on [vramImage] of one fragment at
    [tempDrawCoord = ivec2(gl_FragCoord.xy)]. *)
Definition main (u : uniforms) (vramImage : uimage2D.t)
    (tempDrawCoord : ivec2.t) (interpolated_colour : ivec3.t) : uimage2D.t :=
  let vramPixel := imageLoad vramImage tempDrawCoord in
  let texPixel := texPixel u tempDrawCoord interpolated_colour vramPixel in
  if stores u tempDrawCoord vramPixel
  then imageStore vramImage tempDrawCoord texPixel
  else vramImage.

End ShadedPolygon_FragmentShader1.

(** ** GP0_80_FragmentShader2.h *)

Module GP0_80_FragmentShader2.
Import GLSL uimage2D.

(** The uniforms at locations 0 to 3. *)
Record uniforms : Type := mk_uniforms {
  xOffset : Z;
  yOffset : Z;
  setMask : Z;
  checkMask : Z
}.

(** The coordinate at which [tempDrawImage] is read. *)
Definition tempDrawCoord (u : uniforms) (gl_FragCoord : ivec2.t) : ivec2.t :=
  let tempDrawCoord := gl_FragCoord in
  let tempDrawCoord :=
    ivec2.mk (int_sub (ivec2.x tempDrawCoord) (xOffset u)) (ivec2.y tempDrawCoord) in
  ivec2.mk (ivec2.x tempDrawCoord) (int_sub (ivec2.y tempDrawCoord) (yOffset u)).

(** The value of [tempDrawPixel] when [main] reaches the store. *)
Definition tempDrawPixel (u : uniforms) (tempDrawImage : uimage2D.t)
    (gl_FragCoord : ivec2.t) : uvec4.t :=
  let tempDrawPixel := imageLoad tempDrawImage (tempDrawCoord u gl_FragCoord) in
  if setMask u =? 1 then uvec4.set_a tempDrawPixel 0x1 else tempDrawPixel.

(** The guard of the [imageStore] at the end of [main]. *)
Definition stores (u : uniforms) (vramPixel : uvec4.t) : bool :=
  if checkMask u =? 1
  then negb (uvec4.a vramPixel =? 1)
  else true.

(** [void main(void)]: the effect on [vramImage] of one fragment at
    [vramCoord = ivec2(gl_FragCoord.xy)]. *)
Definition main (u : uniforms) (tempDrawImage vramImage : uimage2D.t)
    (gl_FragCoord : ivec2.t) : uimage2D.t :=
  let vramCoord := gl_FragCoord in
  let tempDrawPixel := tempDrawPixel u tempDrawImage gl_FragCoord in
  let vramPixel := imageLoad vramImage vramCoord in
  if stores u vramPixel
  then imageStore vramImage vramCoord tempDrawPixel
  else vramImage.

End GP0_80_FragmentShader2.

(** ** The two full-viewport vertex shaders

    The components of a [vec4] are the literals -1.0, 0.0 and 1.0, which
    no operation touches; they are carried by binary64 floats. *)

Module vec4.
Record t : Type := mk { x : float; y : float; z : float; w : float }.
End vec4.

Module GP0_A0_VertexShader1.
Local Open Scope float_scope.

Definition positions : list vec4.t :=
  [ vec4.mk (-1.0) (-1.0) 0.0 1.0;
    vec4.mk (-1.0) 1.0 0.0 1.0;
    vec4.mk 1.0 (-1.0) 0.0 1.0;
    vec4.mk 1.0 1.0 0.0 1.0 ].

(** [gl_Position = positions[gl_VertexID]]; [None] where the index is
    outside the array, which GLSL leaves undefined. *)
Definition main (gl_VertexID : Z) : option vec4.t :=
  if (gl_VertexID <? 0)%Z then None else positions !! Z.to_nat gl_VertexID.
End GP0_A0_VertexShader1.

Module MonochromeRectangle_VertexShader1.
Local Open Scope float_scope.

Definition positions : list vec4.t :=
  [ vec4.mk (-1.0) (-1.0) 0.0 1.0;
    vec4.mk (-1.0) 1.0 0.0 1.0;
    vec4.mk 1.0 (-1.0) 0.0 1.0;
    vec4.mk 1.0 1.0 0.0 1.0 ].

Definition main (gl_VertexID : Z) : option vec4.t :=
  if (gl_VertexID <? 0)%Z then None else positions !! Z.to_nat gl_VertexID.
End MonochromeRectangle_VertexShader1.

(** ** DMAArbiter.h

    The header holds declarations only: the public interface of the DMA
    arbiter is the list of its ten prototypes. *)

Module DMAArbiter.

Inductive ctype : Type :=
| void | int8_t | int32_t
| pointer (struct : string).

Record prototype : Type := mk_prototype {
  name : string;
  returns : ctype;
  parameters : list ctype
}.

Definition public_functions : list prototype :=
  [ mk_prototype "construct_DMAArbiter" (pointer "DMAArbiter") [];
    mk_prototype "destruct_DMAArbiter" void [pointer "DMAArbiter"];
    mk_prototype "DMAArbiter_readByte" int8_t [pointer "DMAArbiter"; int32_t];
    mk_prototype "DMAArbiter_readWord" int32_t [pointer "DMAArbiter"; int32_t];
    mk_prototype "DMAArbiter_setCdrom" void [pointer "DMAArbiter"; pointer "CDROMDrive"];
    mk_prototype "DMAArbiter_setCpu" void [pointer "DMAArbiter"; pointer "R3051"];
    mk_prototype "DMAArbiter_setGpu" void [pointer "DMAArbiter"; pointer "GPU"];
    mk_prototype "DMAArbiter_setMemoryInterface" void
                 [pointer "DMAArbiter"; pointer "SystemInterlink"];
    mk_prototype "DMAArbiter_writeByte" void [pointer "DMAArbiter"; int32_t; int8_t];
    mk_prototype "DMAArbiter_writeWord" void [pointer "DMAArbiter"; int32_t; int32_t] ].

Definition declared (f : string) : option prototype :=
  List.find (fun p => String.eqb (name p) f) public_functions.

(** A prototype is that of a step operation when its name mentions
    "step" or "Step". *)
Definition is_step (p : prototype) : bool :=
  match String.index 0 "step" (name p), String.index 0 "Step" (name p) with
  | None, None => false
  | _, _ => true
  end.

End DMAArbiter.

(** ** Concrete inputs used to exercise the statements below *)

Module SP := ShadedPolygon_FragmentShader1.
Module G80 := GP0_80_FragmentShader2.

Module Examples.
Import uimage2D.

(** A drawing area with left = 10, right = 20, top = 100, bottom = 50. *)
Definition area (dither ste mode setMask checkMask : Z) : SP.uniforms :=
  SP.mk_uniforms dither ste mode setMask checkMask 10 100 20 50.

(** A 1024 by 512 VRAM whose texel (15, 75) is masked. *)
Definition vram : uimage2D.t :=
  mk 1024 512 (<[(15, 75) := uvec4.mk 4 5 6 1]> ∅).

(** A temporary image with two texels, both unmasked. *)
Definition temp : uimage2D.t :=
  mk 1024 512 (<[(5, 75) := uvec4.mk 1 2 3 0]> (<[(15, 75) := uvec4.mk 7 8 9 0]> ∅)).

Definition grey : ivec3.t := ivec3.mk 130 130 130.

(** A VRAM whose texel (15, 75) is the brightest 5-bit white. *)
Definition white_vram : uimage2D.t :=
  mk 1024 512 (<[(15, 75) := uvec4.mk 31 31 31 0]> ∅).

Definition white : ivec3.t := ivec3.mk 255 255 255.
End Examples.

(** ** The blend formulas in the specification's words

    Section 4.3, step 5 of the specification: "mode 0: avg of back/front;
    mode 1: back+front; mode 2: back-front; mode 3: back + front/4 ...
    then clamp to [0, 31]".  This is the reading that the shader's
    [semiTransparent] is compared with. *)

Module Spec.
Definition average (B F : Z) : Z := (B + F) / 2.

Definition formula (mode B F : Z) : Z :=
  match mode with
  | 0 => average B F
  | 1 => B + F
  | 2 => B - F
  | 3 => B + F / 4
  | _ => F
  end.

Definition clamp31 (n : Z) : Z := Z.max 0 (Z.min 31 n).

Definition blended (mode B F : Z) : Z := clamp31 (formula mode B F).
End Spec.

(** * Properties *)

(** ** Facts about the 32-bit embedding and about image units *)

Section glsl_facts.
Import GLSL.

Lemma to_int_small (z : Z) : - 2 ^ 31 <= z < 2 ^ 31 -> to_int z = z.
Proof.
  intros Hz. unfold to_int.
  rewrite Z.mod_small; lia.
Qed.

Lemma to_uint_small (z : Z) : 0 <= z < 2 ^ 32 -> to_uint z = z.
Proof. intros Hz. unfold to_uint. now apply Z.mod_small. Qed.

Lemma to_uint_range (z : Z) : 0 <= to_uint z < 2 ^ 32.
Proof. unfold to_uint. apply Z.mod_pos_bound. lia. Qed.

Lemma int_add_small (m n : Z) :
  - 2 ^ 31 <= m + n < 2 ^ 31 -> int_add m n = m + n.
Proof. apply to_int_small. Qed.

Lemma int_sub_small (m n : Z) :
  - 2 ^ 31 <= m - n < 2 ^ 31 -> int_sub m n = m - n.
Proof. apply to_int_small. Qed.

(** On a non-negative dividend, [int] division by a positive constant is
    the usual floor division. *)
Lemma int_div_nonneg (m n : Z) :
  0 <= m < 2 ^ 31 -> 0 < n -> int_div m n = m / n.
Proof.
  intros Hm Hn. unfold int_div.
  rewrite Z.quot_div_nonneg by lia.
  apply to_int_small.
  assert (0 <= m / n <= m); [|lia].
  split; [apply Z.div_pos; lia | apply Z.div_le_upper_bound; nia].
Qed.

Lemma int_mod_nonneg (m n : Z) : 0 <= m -> 0 < n -> int_mod m n = m mod n.
Proof. intros Hm Hn. unfold int_mod. apply Z.rem_mod_nonneg; lia. Qed.
End glsl_facts.

Section image_facts.
Import uimage2D.

Lemma inside_imageStore (img : t) (P Q : ivec2.t) (data : uvec4.t) :
  inside (imageStore img P data) Q = inside img Q.
Proof. unfold imageStore. now destruct (inside img P). Qed.

(** A store inside the grid is read back as it was written. *)
Lemma imageLoad_imageStore (img : t) (P : ivec2.t) (data : uvec4.t) :
  inside img P = true -> imageLoad (imageStore img P data) P = data.
Proof.
  intros Hin. unfold imageLoad.
  rewrite inside_imageStore, Hin.
  unfold imageStore. rewrite Hin. cbn.
  now rewrite lookup_insert_eq.
Qed.

(** A store leaves every other texel alone. *)
Lemma imageLoad_imageStore_other (img : t) (P Q : ivec2.t) (data : uvec4.t) :
  P <> Q -> imageLoad (imageStore img P data) Q = imageLoad img Q.
Proof.
  intros Hne. unfold imageLoad.
  rewrite inside_imageStore.
  destruct (inside img Q); [|reflexivity].
  unfold imageStore. destruct (inside img P); [cbn|reflexivity].
  rewrite lookup_insert_ne; [reflexivity|].
  intros Heq. apply Hne. destruct P, Q. cbn in Heq. congruence.
Qed.

Lemma imageLoad_fits8 (img : t) (P : ivec2.t) :
  wf img -> uvec4.fits8 (imageLoad img P).
Proof.
  intros Hwf. unfold imageLoad.
  destruct (inside img P); [|unfold uvec4.fits8; cbn; lia].
  destruct (texels img !! _) as [p|] eqn:Hp; cbn.
  - eapply Hwf, Hp.
  - unfold uvec4.fits8; cbn; lia.
Qed.

Lemma imageStore_wf (img : t) (P : ivec2.t) (data : uvec4.t) :
  wf img -> uvec4.fits8 data -> wf (imageStore img P data).
Proof.
  intros Hwf Hdata k p. unfold imageStore.
  destruct (inside img P); [cbn|apply Hwf].
  rewrite lookup_insert. case_decide.
  - intros [= <-]. exact Hdata.
  - apply Hwf.
Qed.
End image_facts.

(** ** The stages of the shaded-polygon fragment shader *)

Section shaded_polygon_facts.
Import GLSL uimage2D ShadedPolygon_FragmentShader1.

(** [texPixel], channel by channel. *)
Lemma texPixel_channels (u : uniforms) (P : ivec2.t) (colour : ivec3.t) (vramPixel : uvec4.t) :
  texPixel u P colour vramPixel =
  uvec4.mk (outgoing u (uvec4.r vramPixel) (incoming u P (ivec3.r colour)))
           (outgoing u (uvec4.g vramPixel) (incoming u P (ivec3.g colour)))
           (outgoing u (uvec4.b vramPixel) (incoming u P (ivec3.b colour)))
           (if setMask u =? 1 then 1 else 0).
Proof.
  unfold texPixel, outgoing, incoming.
  destruct (dither u =? 1), (semiTransparencyEnabled u =? 1), (setMask u =? 1);
    reflexivity.
Qed.

Lemma saturate_range (n : Z) : 0 <= saturate n <= 31.
Proof.
  unfold saturate.
  destruct (Z.ltb_spec n 0); [lia|].
  destruct (n >? 31) eqn:Hgt; lia.
Qed.

Lemma saturate_clamp (n : Z) : saturate n = Z.max 0 (Z.min 31 n).
Proof.
  unfold saturate.
  destruct (Z.ltb_spec n 0); [lia|].
  destruct (n >? 31) eqn:Hgt; lia.
Qed.

Lemma semiTransparent_range (mode vramC texC : Z) :
  0 <= semiTransparent mode vramC texC <= 31.
Proof.
  unfold semiTransparent.
  pose proof (saturate_range (blend mode (to_int vramC) (to_int texC))).
  rewrite to_uint_small; lia.
Qed.

(** The dither clamp leaves a value of 0..255 whatever comes in. *)
Lemma ditherChannel_range (P : ivec2.t) (c : Z) : 0 <= ditherChannel P c <= 255.
Proof.
  unfold ditherChannel.
  set (d := int_add _ _).
  destruct (Z.ltb_spec d 0); [rewrite to_uint_small; lia|].
  destruct (d >? 255) eqn:Hgt; rewrite to_uint_small; lia.
Qed.

Lemma shiftr3_bound (c : Z) : 0 <= c <= 255 -> 0 <= Z.shiftr c 3 <= 31.
Proof.
  intros Hc. rewrite Z.shiftr_div_pow2 by lia.
  change (2 ^ 3) with 8.
  split; [apply Z.div_pos; lia|].
  enough (c / 8 < 32) by lia.
  apply Z.div_lt_upper_bound; lia.
Qed.

Lemma quantize_range (c : Z) : 0 <= c -> 0 <= quantize c <= 31.
Proof.
  intros Hc. unfold quantize, uint_shr.
  assert (0 <= Z.shiftr c 3) by (apply Z.shiftr_nonneg; lia).
  destruct (Z.shiftr c 3 >? 31) eqn:Hgt; lia.
Qed.

Lemma incoming_range (u : uniforms) (P : ivec2.t) (colour : Z) :
  0 <= incoming u P colour <= 31.
Proof.
  unfold incoming. apply quantize_range.
  destruct (dither u =? 1).
  - apply ditherChannel_range.
  - apply to_uint_range.
Qed.

Lemma outgoing_range (u : uniforms) (vramC texC : Z) :
  0 <= texC <= 31 -> 0 <= outgoing u vramC texC <= 31.
Proof.
  intros HtexC. unfold outgoing.
  destruct (semiTransparencyEnabled u =? 1); [apply semiTransparent_range|exact HtexC].
Qed.

(** What the shader stores fits the [rgba8ui] format: five bits of
    colour per channel and a mask of 0 or 1. *)
Lemma shaded_pixel_fits8 (u : uniforms) (P : ivec2.t) (colour : ivec3.t) (vramPixel : uvec4.t) :
  uvec4.fits8 (texPixel u P colour vramPixel).
Proof.
  rewrite texPixel_channels. unfold uvec4.fits8; cbn.
  pose proof (outgoing_range u (uvec4.r vramPixel) _ (incoming_range u P (ivec3.r colour))).
  pose proof (outgoing_range u (uvec4.g vramPixel) _ (incoming_range u P (ivec3.g colour))).
  pose proof (outgoing_range u (uvec4.b vramPixel) _ (incoming_range u P (ivec3.b colour))).
  destruct (setMask u =? 1); lia.
Qed.

Lemma main_wf (u : uniforms) (vramImage : uimage2D.t) (P : ivec2.t) (colour : ivec3.t) :
  wf vramImage -> wf (main u vramImage P colour).
Proof.
  intros Hwf. unfold main.
  destruct (stores u P _); [|exact Hwf].
  apply imageStore_wf; [exact Hwf|apply shaded_pixel_fits8].
Qed.

(** The store guard, spelled out. *)
Lemma inDrawingArea_bounds (u : uniforms) (P : ivec2.t) :
  inDrawingArea u P = true <->
  drawTopLeftX u <= ivec2.x P <= drawBottomRightX u /\
  drawBottomRightY u <= ivec2.y P <= drawTopLeftY u.
Proof.
  unfold inDrawingArea.
  destruct (ivec2.x P >=? drawTopLeftX u) eqn:H1,
           (ivec2.x P <=? drawBottomRightX u) eqn:H2,
           (ivec2.y P <=? drawTopLeftY u) eqn:H3,
           (ivec2.y P >=? drawBottomRightY u) eqn:H4; cbn; split; try lia;
    intros; try discriminate; try reflexivity.
Qed.

(** With dithering off nothing clamps the colour to 0..255 before the
    shift: there the test [> 0x1F] is what bounds a colour above 255. *)
Remark quantize_clamps_undithered (P : ivec2.t) :
  (uint_shr (to_uint 256) 3 >? 0x1F) = true /\
  incoming (mk_uniforms 0 0 0 0 0 0 0 0 0) P 256 = 31.
Proof. split; reflexivity. Qed.

Lemma stores_inDrawingArea (u : uniforms) (P : ivec2.t) (vramPixel : uvec4.t) :
  stores u P vramPixel = true -> inDrawingArea u P = true.
Proof.
  unfold stores.
  destruct (checkMask u =? 1); [|trivial].
  intros H. now apply andb_true_iff in H.
Qed.
End shaded_polygon_facts.

(** ** The VRAM-to-VRAM copy shader *)

Section gp0_80_facts.
Import GLSL uimage2D GP0_80_FragmentShader2.

(** The colour stored is the one loaded from the temporary image; only
    the mask component may be replaced. *)
Lemma tempDrawPixel_channels (u : uniforms) (tempDrawImage : uimage2D.t) (P : ivec2.t) :
  let src := imageLoad tempDrawImage (tempDrawCoord u P) in
  tempDrawPixel u tempDrawImage P =
  uvec4.mk (uvec4.r src) (uvec4.g src) (uvec4.b src)
           (if setMask u =? 1 then 1 else uvec4.a src).
Proof.
  cbn. unfold tempDrawPixel.
  destruct (setMask u =? 1); [reflexivity|].
  now destruct (imageLoad tempDrawImage (tempDrawCoord u P)).
Qed.

Lemma copied_pixel_fits8 (u : uniforms) (tempDrawImage : uimage2D.t) (P : ivec2.t) :
  wf tempDrawImage -> uvec4.fits8 (tempDrawPixel u tempDrawImage P).
Proof.
  intros Hwf. rewrite tempDrawPixel_channels.
  pose proof (imageLoad_fits8 tempDrawImage (tempDrawCoord u P) Hwf) as Hsrc.
  unfold uvec4.fits8 in *; cbn.
  destruct (setMask u =? 1); lia.
Qed.

Lemma stores_iff (u : uniforms) (vramPixel : uvec4.t) :
  stores u vramPixel = true <-> checkMask u <> 1 \/ uvec4.a vramPixel <> 1.
Proof.
  unfold stores.
  destruct (Z.eqb_spec (checkMask u) 1), (Z.eqb_spec (uvec4.a vramPixel) 1);
    cbn; intuition congruence.
Qed.
End gp0_80_facts.

(** * The claims of the specification *)

Import uimage2D.

(** C1.  Mask discipline of every pixel write.  With mask-check enabled
    ([checkMask] is 1), a destination whose mask component is 1 is not
    overwritten: the fragment leaves VRAM as it was, in the polygon shader
    and in the copy shader alike.  With mask-check disabled, the polygon
    shader stores its pixel whenever the coordinate is in the drawing area
    and the copy shader stores its pixel always; a store inside the image
    is what the next load returns. *)
Theorem C1_mask_check_discipline
    (u : SP.uniforms) (v : G80.uniforms) (vramImage tempDrawImage : uimage2D.t)
    (P : ivec2.t) (colour : ivec3.t) :
  (SP.checkMask u = 1 -> uvec4.a (imageLoad vramImage P) = 1 ->
   SP.main u vramImage P colour = vramImage) /\
  (SP.checkMask u <> 1 -> SP.inDrawingArea u P = true ->
   SP.main u vramImage P colour =
   imageStore vramImage P (SP.texPixel u P colour (imageLoad vramImage P))) /\
  (G80.checkMask v = 1 -> uvec4.a (imageLoad vramImage P) = 1 ->
   G80.main v tempDrawImage vramImage P = vramImage) /\
  (G80.checkMask v <> 1 ->
   G80.main v tempDrawImage vramImage P =
   imageStore vramImage P (G80.tempDrawPixel v tempDrawImage P)) /\
  (inside vramImage P = true ->
   forall data, imageLoad (imageStore vramImage P data) P = data).
Proof.
  repeat split.
  - intros Hcheck Hmask. unfold SP.main, SP.stores.
    now rewrite Hcheck, Hmask.
  - intros Hcheck Harea. unfold SP.main, SP.stores.
    apply Z.eqb_neq in Hcheck. now rewrite Hcheck, Harea.
  - intros Hcheck Hmask. unfold G80.main, G80.stores.
    now rewrite Hcheck, Hmask.
  - intros Hcheck. unfold G80.main, G80.stores.
    apply Z.eqb_neq in Hcheck. now rewrite Hcheck.
  - intros Hin data. now apply imageLoad_imageStore.
Qed.

Lemma C1_mask_check_discipline_witness :
  SP.main (Examples.area 1 0 0 0 1) Examples.vram (ivec2.mk 15 75) Examples.grey
    = Examples.vram /\
  imageLoad (SP.main (Examples.area 1 0 0 0 0) Examples.vram (ivec2.mk 15 75) Examples.grey)
            (ivec2.mk 15 75) = uvec4.mk 16 16 16 0 /\
  G80.main (G80.mk_uniforms 0 0 0 1) Examples.temp Examples.vram (ivec2.mk 15 75)
    = Examples.vram /\
  imageLoad (G80.main (G80.mk_uniforms 0 0 0 0) Examples.temp Examples.vram (ivec2.mk 15 75))
            (ivec2.mk 15 75) = uvec4.mk 7 8 9 0.
Proof.
  pose proof (C1_mask_check_discipline (Examples.area 1 0 0 0 1) (G80.mk_uniforms 0 0 0 1)
                Examples.vram Examples.temp (ivec2.mk 15 75) Examples.grey)
    as (Hkeep & _ & Hkeep80 & _ & _).
  pose proof (C1_mask_check_discipline (Examples.area 1 0 0 0 0) (G80.mk_uniforms 0 0 0 0)
                Examples.vram Examples.temp (ivec2.mk 15 75) Examples.grey)
    as (_ & Hdraw & _ & Hcopy & Hread).
  split; [apply Hkeep; reflexivity|].
  split; [rewrite Hdraw by (vm_compute; congruence || reflexivity);
          rewrite Hread by reflexivity; reflexivity|].
  split; [apply Hkeep80; reflexivity|].
  rewrite Hcopy by (vm_compute; congruence).
  rewrite Hread by reflexivity. reflexivity.
Defined.

(** C2.  Clipping to the drawing area.  A fragment of the polygon shader
    is stored only if left <= x <= right and bottom <= y <= top, where
    (left, top) is the [drawTopLeft] uniform and (right, bottom) the
    [drawBottomRight] one; outside these bounds VRAM is returned as it
    was.  With left = 10, right = 20, top = 100, bottom = 50 the fragment
    at (5, 75) is dropped and the one at (15, 75) is in the area, hence
    stored unless mask-check finds the destination masked. *)
Theorem C2_clip_rectangle
    (u : SP.uniforms) (vramImage : uimage2D.t) (P : ivec2.t) (colour : ivec3.t) :
  let within :=
    SP.drawTopLeftX u <= ivec2.x P <= SP.drawBottomRightX u /\
    SP.drawBottomRightY u <= ivec2.y P <= SP.drawTopLeftY u in
  (SP.inDrawingArea u P = true <-> within) /\
  (SP.stores u P (imageLoad vramImage P) = true -> within) /\
  (SP.main u vramImage P colour <> vramImage -> within) /\
  (~ within -> SP.main u vramImage P colour = vramImage) /\
  (forall dither ste mode setMask checkMask,
     let clip := SP.mk_uniforms dither ste mode setMask checkMask 10 100 20 50 in
     SP.main clip vramImage (ivec2.mk 5 75) colour = vramImage /\
     SP.inDrawingArea clip (ivec2.mk 15 75) = true /\
     (checkMask <> 1 \/ uvec4.a (imageLoad vramImage (ivec2.mk 15 75)) <> 1 ->
      SP.main clip vramImage (ivec2.mk 15 75) colour =
      imageStore vramImage (ivec2.mk 15 75)
        (SP.texPixel clip (ivec2.mk 15 75) colour (imageLoad vramImage (ivec2.mk 15 75))))).
Proof.
  intros within.
  assert (Hstores : SP.stores u P (imageLoad vramImage P) = true -> within).
  { intros Hs. now apply stores_inDrawingArea, inDrawingArea_bounds in Hs. }
  assert (Hdrop : SP.stores u P (imageLoad vramImage P) = false ->
                  SP.main u vramImage P colour = vramImage).
  { intros Hs. unfold SP.main. now rewrite Hs. }
  split; [apply inDrawingArea_bounds|].
  split; [exact Hstores|].
  split.
  { intros Hchanged.
    destruct (SP.stores u P (imageLoad vramImage P)) eqn:Hs; [now apply Hstores|].
    now destruct Hchanged; apply Hdrop. }
  split.
  { intros Hout.
    destruct (SP.stores u P (imageLoad vramImage P)) eqn:Hs; [|now apply Hdrop].
    now destruct Hout; apply Hstores. }
  intros dither ste mode setMask checkMask clip.
  split.
  { unfold SP.main, SP.stores.
    replace (SP.inDrawingArea clip (ivec2.mk 5 75)) with false by reflexivity.
    rewrite andb_false_r. now destruct (SP.checkMask clip =? 1). }
  split; [reflexivity|].
  intros Hopen. unfold SP.main, SP.stores.
  replace (SP.inDrawingArea clip (ivec2.mk 15 75)) with true by reflexivity.
  change (SP.checkMask clip) with checkMask.
  destruct (Z.eqb_spec checkMask 1) as [Hc|Hc]; [|reflexivity].
  destruct (Z.eqb_spec (uvec4.a (imageLoad vramImage (ivec2.mk 15 75))) 1) as [Ha|Ha];
    [|reflexivity].
  now destruct Hopen.
Qed.

Lemma C2_clip_rectangle_witness :
  SP.main (Examples.area 1 0 0 0 0) Examples.vram (ivec2.mk 5 75) Examples.grey
    = Examples.vram /\
  imageLoad (SP.main (Examples.area 1 0 0 0 0) Examples.vram (ivec2.mk 15 75) Examples.grey)
            (ivec2.mk 15 75) = uvec4.mk 16 16 16 0 /\
  (10 <= 15 <= 20 /\ 50 <= 75 <= 100).
Proof.
  pose proof (C2_clip_rectangle (Examples.area 1 0 0 0 0) Examples.vram
                (ivec2.mk 5 75) Examples.grey) as (_ & _ & _ & Hout & _).
  pose proof (C2_clip_rectangle (Examples.area 1 0 0 0 0) Examples.vram
                (ivec2.mk 15 75) Examples.grey) as (_ & Hin & Hchanged & _ & Hscene).
  split; [apply Hout; cbn; lia|].
  split.
  - destruct (Hscene 1 0 0 0 0) as (_ & _ & Hstored).
    unfold Examples.area. rewrite Hstored by (left; lia).
    reflexivity.
  - apply Hin. reflexivity.
Defined.

(** C3 as stated fails in mode 0.  The shader halves the back and the
    front value separately, each rounded down, so two odd values lose a
    unit: for B = F = 31 the average is 31 (exactly: 31 + 31 = 2 * 31) and
    the shader writes 30. *)
Lemma C3_mode0_is_not_the_average :
  0 <= 31 <= 31 /\
  31 + 31 = 2 * Spec.average 31 31 /\
  Spec.blended 0 31 31 = 31 /\
  SP.semiTransparent 0 31 31 = 30 /\
  SP.semiTransparent 0 31 31 <> Spec.blended 0 31 31 /\
  imageLoad (SP.main (Examples.area 0 1 0 0 0) Examples.white_vram
                     (ivec2.mk 15 75) Examples.white) (ivec2.mk 15 75)
    = uvec4.mk 30 30 30 0.
Proof. vm_compute. repeat split; congruence. Qed.

(** C3, amended.  For back and front values B and F of 5 bits the shader
    computes, per channel, mode 0: B/2 + F/2 with each half rounded down
    (the average of B and F, less one when both are odd); mode 1: B + F;
    mode 2: B - F; mode 3: B + F/4; and clamps the result to 0..31.  In the
    pixel that [main] stores, each colour channel is this function of the
    VRAM channel and of the quantized incoming channel. *)
Theorem C3_blend_formulas
    (u : SP.uniforms) (P : ivec2.t) (colour : ivec3.t) (vramPixel : uvec4.t) (B F : Z) :
  (0 <= B <= 31 -> 0 <= F <= 31 ->
   SP.semiTransparent 0 B F = Z.max 0 (Z.min 31 (B / 2 + F / 2)) /\
   SP.semiTransparent 1 B F = Z.max 0 (Z.min 31 (B + F)) /\
   SP.semiTransparent 2 B F = Z.max 0 (Z.min 31 (B - F)) /\
   SP.semiTransparent 3 B F = Z.max 0 (Z.min 31 (B + F / 4)) /\
   B / 2 + F / 2 = (B + F) / 2 - (if Z.odd B && Z.odd F then 1 else 0)) /\
  (SP.semiTransparencyEnabled u = 1 ->
   let mode := SP.semiTransparencyMode u in
   let written := SP.texPixel u P colour vramPixel in
   uvec4.r written =
     SP.semiTransparent mode (uvec4.r vramPixel) (SP.incoming u P (ivec3.r colour)) /\
   uvec4.g written =
     SP.semiTransparent mode (uvec4.g vramPixel) (SP.incoming u P (ivec3.g colour)) /\
   uvec4.b written =
     SP.semiTransparent mode (uvec4.b vramPixel) (SP.incoming u P (ivec3.b colour))).
Proof.
  split.
  - intros HB HF. unfold SP.semiTransparent.
    rewrite (to_int_small B), (to_int_small F) by lia.
    rewrite !saturate_clamp. unfold SP.blend.
    assert (HB2 : 0 <= B / 2 <= 15) by (Z.div_mod_to_equations; lia).
    assert (HF2 : 0 <= F / 2 <= 15) by (Z.div_mod_to_equations; lia).
    assert (HF4 : 0 <= F / 4 <= 7) by (Z.div_mod_to_equations; lia).
    rewrite !int_div_nonneg by lia.
    rewrite !int_add_small, int_sub_small by lia.
    repeat split; try (apply to_uint_small; lia).
    rewrite (Zodd_mod B), (Zodd_mod F).
    destruct (Z.eqb_spec (B mod 2) 1), (Z.eqb_spec (F mod 2) 1); cbn;
      Z.div_mod_to_equations; lia.
  - intros Hon mode written. subst written.
    rewrite texPixel_channels. unfold SP.outgoing. rewrite Hon. cbn.
    repeat split.
Qed.

Lemma C3_blend_formulas_witness :
  SP.semiTransparent 0 31 31 = Z.max 0 (Z.min 31 (31 / 2 + 31 / 2)) /\
  SP.semiTransparent 2 4 31 = Z.max 0 (Z.min 31 (4 - 31)) /\
  uvec4.r (SP.texPixel (Examples.area 0 1 3 0 0) (ivec2.mk 15 75) Examples.white
                       (uvec4.mk 31 31 31 0)) = 31.
Proof.
  pose proof (C3_blend_formulas (Examples.area 0 1 3 0 0) (ivec2.mk 15 75) Examples.white
                (uvec4.mk 31 31 31 0) 31 31) as [Hformula Hpixel].
  pose proof (C3_blend_formulas (Examples.area 0 1 3 0 0) (ivec2.mk 15 75) Examples.white
                (uvec4.mk 31 31 31 0) 4 31) as [Hsub _].
  split; [apply Hformula; lia|].
  split; [apply Hsub; lia|].
  destruct (Hpixel eq_refl) as (Hr & _ & _).
  rewrite Hr. reflexivity.
Defined.

(** C4.  Saturation of the blend.  In each of the four modes and for all
    5-bit back and front values every output channel is within 0..31, also
    where the formula leaves that range: 31 + 31 = 62 is stored as 31 in
    mode 1 and 0 - 31 = -31 is stored as 0 in mode 2.  The channels of the
    pixel that [main] stores obey the same bound. *)
Theorem C4_blend_saturates
    (u : SP.uniforms) (P : ivec2.t) (colour : ivec3.t) (vramPixel : uvec4.t)
    (mode B F : Z) :
  (0 <= mode <= 3 -> 0 <= B <= 31 -> 0 <= F <= 31 ->
   0 <= SP.semiTransparent mode B F <= 31) /\
  (SP.blend 1 31 31 = 62 /\ SP.semiTransparent 1 31 31 = 31) /\
  (SP.blend 2 0 31 = -31 /\ SP.semiTransparent 2 0 31 = 0) /\
  (SP.semiTransparencyEnabled u = 1 ->
   let written := SP.texPixel u P colour vramPixel in
   0 <= uvec4.r written <= 31 /\
   0 <= uvec4.g written <= 31 /\
   0 <= uvec4.b written <= 31).
Proof.
  split; [intros _ _ _; apply semiTransparent_range|].
  split; [split; reflexivity|].
  split; [split; reflexivity|].
  intros _ written. subst written. rewrite texPixel_channels. cbn.
  repeat split; apply outgoing_range, incoming_range.
Qed.

Lemma C4_blend_saturates_witness :
  0 <= SP.semiTransparent 1 31 31 <= 31 /\
  0 <= SP.semiTransparent 2 0 31 <= 31 /\
  0 <= uvec4.r (SP.texPixel (Examples.area 0 1 1 0 0) (ivec2.mk 15 75) Examples.white
                            (uvec4.mk 31 31 31 0)) <= 31.
Proof.
  pose proof (C4_blend_saturates (Examples.area 0 1 1 0 0) (ivec2.mk 15 75) Examples.white
                (uvec4.mk 31 31 31 0) 1 31 31) as (Hadd & _ & _ & Hpixel).
  pose proof (C4_blend_saturates (Examples.area 0 1 1 0 0) (ivec2.mk 15 75) Examples.white
                (uvec4.mk 31 31 31 0) 2 0 31) as (Hsub & _).
  split; [apply Hadd; lia|].
  split; [apply Hsub; lia|].
  apply (Hpixel eq_refl).
Defined.

(** C5.  Dithering.  With dithering enabled, a fragment at (x, y) with
    0 <= x and 0 <= y <= 511 has the entry of the 4x4 matrix at column
    x mod 4 and row (511 - y) mod 4 added to each 8-bit colour channel; the
    sum is clamped to 0..255 and only then shifted down to 5 bits.  For the
    fragment at (0, 0) with colour (130, 130, 130) the entry is +3, the sum
    133 and the quantized value 133 >> 3 = 16. *)
Theorem C5_dither
    (u : SP.uniforms) (P : ivec2.t) (colour : ivec3.t) :
  let offset := SP.ditherArray (ivec2.x P mod 4) ((511 - ivec2.y P) mod 4) in
  let dithered c := Z.max 0 (Z.min 255 (c + offset)) in
  (SP.dither u = 1 ->
   0 <= ivec2.x P < 2 ^ 31 -> 0 <= ivec2.y P <= 511 ->
   forall c, 0 <= c <= 255 ->
     -4 <= offset <= 3 /\
     SP.ditherChannel P (GLSL.to_uint c) = dithered c /\
     SP.incoming u P c = Z.shiftr (dithered c) 3) /\
  (SP.dither u = 1 -> SP.semiTransparencyEnabled u <> 1 ->
   forall vramPixel,
     uvec4.r (SP.texPixel u P colour vramPixel) = SP.incoming u P (ivec3.r colour) /\
     uvec4.g (SP.texPixel u P colour vramPixel) = SP.incoming u P (ivec3.g colour) /\
     uvec4.b (SP.texPixel u P colour vramPixel) = SP.incoming u P (ivec3.b colour)) /\
  (SP.ditherArray (0 mod 4) ((511 - 0) mod 4) = 3 /\
   SP.ditherChannel (ivec2.mk 0 0) (GLSL.to_uint 130) = 133 /\
   Z.shiftr 133 3 = 16 /\
   forall ste mode setMask checkMask l t r b vramPixel,
     ste <> 1 ->
     SP.texPixel (SP.mk_uniforms 1 ste mode setMask checkMask l t r b)
                 (ivec2.mk 0 0) (ivec3.mk 130 130 130) vramPixel
     = uvec4.mk 16 16 16 (if setMask =? 1 then 1 else 0)).
Proof.
  intros offset dithered.
  split.
  - intros Hon Hx Hy c Hc.
    assert (Hoffset : -4 <= offset <= 3).
    { subst offset.
      pose proof (Z.mod_pos_bound (ivec2.x P) 4 ltac:(lia)) as Hcol.
      pose proof (Z.mod_pos_bound (511 - ivec2.y P) 4 ltac:(lia)) as Hrow.
      assert (Hcol' : ivec2.x P mod 4 = 0 \/ ivec2.x P mod 4 = 1 \/
                      ivec2.x P mod 4 = 2 \/ ivec2.x P mod 4 = 3) by lia.
      assert (Hrow' : (511 - ivec2.y P) mod 4 = 0 \/ (511 - ivec2.y P) mod 4 = 1 \/
                      (511 - ivec2.y P) mod 4 = 2 \/ (511 - ivec2.y P) mod 4 = 3) by lia.
      destruct Hcol' as [-> | [-> | [-> | ->]]], Hrow' as [-> | [-> | [-> | ->]]];
        cbn; lia. }
    assert (Hchannel : SP.ditherChannel P (GLSL.to_uint c) = dithered c).
    { unfold SP.ditherChannel, SP.ditherColumn, SP.ditherRow.
      rewrite (to_uint_small c) by lia.
      rewrite (to_int_small c) by lia.
      rewrite (int_sub_small 511) by lia.
      rewrite !int_mod_nonneg by lia.
      fold offset. rewrite int_add_small by lia.
      subst dithered. cbn beta.
      destruct (Z.ltb_spec (c + offset) 0); [rewrite to_uint_small; lia|].
      destruct (c + offset >? 255) eqn:Hgt; rewrite to_uint_small; lia. }
    split; [exact Hoffset|]. split; [exact Hchannel|].
    unfold SP.incoming. rewrite Hon. cbn. rewrite Hchannel.
    unfold SP.quantize, GLSL.uint_shr.
    assert (Hq : 0 <= Z.shiftr (dithered c) 3 <= 31)
      by (apply shiftr3_bound; subst dithered; cbn beta; lia).
    destruct (Z.shiftr (dithered c) 3 >? 31) eqn:Hgt; [lia|reflexivity].
  - split.
    + intros _ Hoff vramPixel. rewrite texPixel_channels. unfold SP.outgoing.
      apply Z.eqb_neq in Hoff. rewrite Hoff. cbn. repeat split.
    + split; [reflexivity|]. split; [reflexivity|]. split; [reflexivity|].
      intros ste mode setMask checkMask l t r b vramPixel Hoff.
      rewrite texPixel_channels. unfold SP.outgoing. cbn.
      apply Z.eqb_neq in Hoff. rewrite Hoff. reflexivity.
Qed.

Lemma C5_dither_witness :
  SP.ditherChannel (ivec2.mk 0 0) (GLSL.to_uint 130) = Z.max 0 (Z.min 255 (130 + 3)) /\
  SP.incoming (Examples.area 1 0 0 0 0) (ivec2.mk 0 0) 130 = 16 /\
  SP.ditherChannel (ivec2.mk 5 510) (GLSL.to_uint 1) = 0 /\
  uvec4.r (SP.texPixel (Examples.area 1 0 0 0 0) (ivec2.mk 0 0) Examples.grey
                       (uvec4.mk 4 5 6 1)) = 16.
Proof.
  pose proof (C5_dither (Examples.area 1 0 0 0 0) (ivec2.mk 0 0) Examples.grey)
    as (Hadd & Hpixel & _ & _ & _ & Hscene).
  pose proof (C5_dither (Examples.area 1 0 0 0 0) (ivec2.mk 5 510) Examples.grey)
    as (Hclamp & _).
  destruct (Hadd eq_refl ltac:(cbn; lia) ltac:(cbn; lia) 130 ltac:(lia))
    as (_ & Hchannel & Hquantized).
  destruct (Hclamp eq_refl ltac:(cbn; lia) ltac:(cbn; lia) 1 ltac:(lia))
    as (_ & Hlow & _).
  split; [exact Hchannel|].
  split; [rewrite Hquantized; reflexivity|].
  split; [rewrite Hlow; reflexivity|].
  destruct (Hpixel eq_refl ltac:(cbn; lia) (uvec4.mk 4 5 6 1)) as (Hr & _ & _).
  rewrite Hr.
  change (SP.incoming (Examples.area 1 0 0 0 0) (ivec2.mk 0 0) 130 = 16).
  rewrite Hquantized. reflexivity.
Defined.

(** C6.  Quantization (shift right by three, clamp to 31) is monotonic on
    channel values, and a 5-bit value scaled back to 8 bits (shifted left
    by three, that is, multiplied by 8) quantizes to itself. *)
Theorem C6_quantize_monotone_idempotent (c d v : Z) :
  (0 <= c <= d -> SP.quantize c <= SP.quantize d) /\
  (0 <= v <= 31 ->
   Z.shiftl v 3 = v * 8 /\
   0 <= Z.shiftl v 3 <= 255 /\
   SP.quantize (Z.shiftl v 3) = v /\
   SP.quantize (Z.shiftl (SP.quantize (Z.shiftl v 3)) 3) = SP.quantize (Z.shiftl v 3)).
Proof.
  split.
  - intros Hcd. unfold SP.quantize, GLSL.uint_shr.
    assert (Hshift : Z.shiftr c 3 <= Z.shiftr d 3).
    { rewrite !Z.shiftr_div_pow2 by lia. apply Z.div_le_mono; lia. }
    destruct (Z.shiftr c 3 >? 31) eqn:Hc, (Z.shiftr d 3 >? 31) eqn:Hd; lia.
  - intros Hv.
    assert (Hscale : Z.shiftl v 3 = v * 8) by (rewrite Z.shiftl_mul_pow2 by lia; reflexivity).
    assert (Hback : SP.quantize (Z.shiftl v 3) = v).
    { unfold SP.quantize, GLSL.uint_shr.
      rewrite Z.shiftr_shiftl_l by lia. change (3 - 3) with 0. rewrite Z.shiftl_0_r.
      destruct (v >? 31) eqn:Hgt; lia. }
    split; [exact Hscale|]. split; [lia|]. split; [exact Hback|].
    now rewrite Hback.
Qed.

Lemma C6_quantize_monotone_idempotent_witness :
  SP.quantize 130 <= SP.quantize 133 /\ SP.quantize (Z.shiftl 16 3) = 16.
Proof.
  pose proof (C6_quantize_monotone_idempotent 130 133 16) as [Hmono Hidem].
  split; [apply Hmono; lia|].
  apply Hidem; lia.
Defined.

(** C9.  After the dither clamp a channel lies in 0..255, whatever the
    incoming colour; for every channel value in 0..255 the shift by three
    is at most 31, the test [> 0x1F] that follows it is false, and the
    quantized value is the shifted one, within 0..31. *)
Theorem C9_quantize_clamp_unreachable (P : ivec2.t) (colour c : Z) :
  0 <= SP.ditherChannel P (GLSL.to_uint colour) <= 255 /\
  (0 <= c <= 255 ->
   GLSL.uint_shr c 3 <= 31 /\
   (GLSL.uint_shr c 3 >? 0x1F) = false /\
   SP.quantize c = GLSL.uint_shr c 3 /\
   0 <= SP.quantize c <= 31).
Proof.
  split; [apply ditherChannel_range|].
  intros Hc. pose proof (shiftr3_bound c Hc) as Hshift.
  unfold SP.quantize, GLSL.uint_shr in *.
  destruct (Z.shiftr c 3 >? 31) eqn:Hgt; [lia|].
  repeat split; lia.
Qed.

Lemma C9_quantize_clamp_unreachable_witness :
  (GLSL.uint_shr 255 3 >? 0x1F) = false /\ SP.quantize 255 = 31.
Proof.
  pose proof (C9_quantize_clamp_unreachable (ivec2.mk 0 0) 300 255) as [_ Hq].
  destruct (Hq ltac:(lia)) as (_ & Hbranch & Hvalue & _).
  split; [exact Hbranch|].
  rewrite Hvalue. reflexivity.
Defined.

(** C7 as stated fails: the copy shader has no drawing-area uniform and
    never calls [inDrawingArea].  With the drawing area of C2 (left = 10,
    right = 20, top = 100, bottom = 50) the fragment at (5, 75) is outside
    the area, the polygon shader drops it, and the copy shader stores the
    transferred pixel (1, 2, 3, 0) there. *)
Lemma C7_copy_ignores_the_drawing_area :
  SP.inDrawingArea (Examples.area 0 0 0 0 0) (ivec2.mk 5 75) = false /\
  SP.main (Examples.area 0 0 0 0 0) Examples.vram (ivec2.mk 5 75) Examples.grey
    = Examples.vram /\
  imageLoad Examples.vram (ivec2.mk 5 75) = uvec4.mk 0 0 0 0 /\
  imageLoad (G80.main (G80.mk_uniforms 0 0 0 0) Examples.temp Examples.vram (ivec2.mk 5 75))
            (ivec2.mk 5 75) = uvec4.mk 1 2 3 0 /\
  G80.main (G80.mk_uniforms 0 0 0 0) Examples.temp Examples.vram (ivec2.mk 5 75)
    <> Examples.vram.
Proof.
  repeat split; try reflexivity.
  intros Hsame.
  apply (f_equal (fun img => imageLoad img (ivec2.mk 5 75))) in Hsame.
  vm_compute in Hsame. discriminate Hsame.
Qed.

(** C7, amended.  A fragment of the VRAM-to-VRAM copy is stored exactly
    when mask-check is disabled or the mask component of the existing VRAM
    pixel is not 1; the drawing area is not consulted.  What is stored is
    the transferred pixel, read from the temporary image at the coordinate
    less the offset, with its mask component replaced by 1 when [setMask]
    is 1; its colour is neither dithered nor quantized. *)
Theorem C7_copy_mask_discipline
    (v : G80.uniforms) (tempDrawImage vramImage : uimage2D.t) (P : ivec2.t) :
  (G80.checkMask v <> 1 \/ uvec4.a (imageLoad vramImage P) <> 1 ->
   G80.main v tempDrawImage vramImage P =
   imageStore vramImage P (G80.tempDrawPixel v tempDrawImage P)) /\
  (G80.checkMask v = 1 -> uvec4.a (imageLoad vramImage P) = 1 ->
   G80.main v tempDrawImage vramImage P = vramImage) /\
  (let src := imageLoad tempDrawImage
                (ivec2.mk (GLSL.int_sub (ivec2.x P) (G80.xOffset v))
                          (GLSL.int_sub (ivec2.y P) (G80.yOffset v))) in
   G80.tempDrawPixel v tempDrawImage P =
   uvec4.mk (uvec4.r src) (uvec4.g src) (uvec4.b src)
            (if G80.setMask v =? 1 then 1 else uvec4.a src)).
Proof.
  split; [|split].
  - intros Hopen. apply stores_iff in Hopen.
    unfold G80.main. now rewrite Hopen.
  - intros Hcheck Hmask. unfold G80.main, G80.stores.
    now rewrite Hcheck, Hmask.
  - apply tempDrawPixel_channels.
Qed.

Lemma C7_copy_mask_discipline_witness :
  imageLoad (G80.main (G80.mk_uniforms 0 0 0 0) Examples.temp Examples.vram (ivec2.mk 5 75))
            (ivec2.mk 5 75) = uvec4.mk 1 2 3 0 /\
  G80.main (G80.mk_uniforms 0 0 1 1) Examples.temp Examples.vram (ivec2.mk 15 75)
    = Examples.vram.
Proof.
  pose proof (C7_copy_mask_discipline (G80.mk_uniforms 0 0 0 0) Examples.temp Examples.vram
                (ivec2.mk 5 75)) as (Hstore & _ & _).
  pose proof (C7_copy_mask_discipline (G80.mk_uniforms 0 0 1 1) Examples.temp Examples.vram
                (ivec2.mk 15 75)) as (_ & Hkeep & _).
  split; [rewrite Hstore by (left; cbn; lia); reflexivity|].
  apply Hkeep; reflexivity.
Defined.

(** C8 as stated fails: none of the ten prototypes of DMAArbiter.h is a
    step operation. *)
Lemma C8_no_step_operation :
  ~ exists p, In p DMAArbiter.public_functions /\ DMAArbiter.is_step p = true.
Proof.
  intros (p & Hin & Hstep).
  cbn in Hin.
  repeat (destruct Hin as [<- | Hin]; [discriminate Hstep|]).
  exact Hin.
Qed.

(** C8, amended.  The public interface of the DMA arbiter is made of ten
    functions: a constructor and a destructor, [readByte] and [readWord],
    which take an address and return a value of 8 and of 32 bits,
    [writeByte] and [writeWord], which take an address and a value, and one
    setter for each of the CD-ROM drive, the CPU, the GPU and the memory
    interface.  It declares no step operation. *)
Theorem C8_public_contract :
  map DMAArbiter.name DMAArbiter.public_functions =
    [ "construct_DMAArbiter"; "destruct_DMAArbiter";
      "DMAArbiter_readByte"; "DMAArbiter_readWord";
      "DMAArbiter_setCdrom"; "DMAArbiter_setCpu"; "DMAArbiter_setGpu";
      "DMAArbiter_setMemoryInterface";
      "DMAArbiter_writeByte"; "DMAArbiter_writeWord" ]%string /\
  (let dma := DMAArbiter.pointer "DMAArbiter" in
   let signature f :=
     option_map (fun p => (DMAArbiter.parameters p, DMAArbiter.returns p))
                (DMAArbiter.declared f) in
   signature "DMAArbiter_readByte"%string
     = Some ([dma; DMAArbiter.int32_t], DMAArbiter.int8_t) /\
   signature "DMAArbiter_readWord"%string
     = Some ([dma; DMAArbiter.int32_t], DMAArbiter.int32_t) /\
   signature "DMAArbiter_writeByte"%string
     = Some ([dma; DMAArbiter.int32_t; DMAArbiter.int8_t], DMAArbiter.void) /\
   signature "DMAArbiter_writeWord"%string
     = Some ([dma; DMAArbiter.int32_t; DMAArbiter.int32_t], DMAArbiter.void)) /\
  existsb DMAArbiter.is_step DMAArbiter.public_functions = false.
Proof. repeat split. Qed.

(** C10.  The GP0_A0 and the MonochromeRectangle vertex shaders compute the
    same position for every vertex index 0..3: the corner (-1, -1),
    (-1, 1), (1, -1), (1, 1) of the viewport in this order, with z = 0 and
    w = 1. *)
Theorem C10_vertex_shaders_agree (gl_VertexID : Z) :
  0 <= gl_VertexID <= 3 ->
  let corner :=
    vec4.mk (if gl_VertexID <? 2 then (-1.0)%float else 1.0%float)
            (if Z.even gl_VertexID then (-1.0)%float else 1.0%float)
            0.0%float 1.0%float in
  GP0_A0_VertexShader1.main gl_VertexID = Some corner /\
  MonochromeRectangle_VertexShader1.main gl_VertexID = Some corner /\
  GP0_A0_VertexShader1.main gl_VertexID = MonochromeRectangle_VertexShader1.main gl_VertexID.
Proof.
  intros Hid.
  assert (Hcases : gl_VertexID = 0 \/ gl_VertexID = 1 \/ gl_VertexID = 2 \/ gl_VertexID = 3)
    by lia.
  destruct Hcases as [-> | [-> | [-> | ->]]]; repeat split.
Qed.

Lemma C10_vertex_shaders_agree_witness :
  GP0_A0_VertexShader1.main 2 = Some (vec4.mk 1.0 (-1.0) 0.0 1.0)%float /\
  MonochromeRectangle_VertexShader1.main 2 = Some (vec4.mk 1.0 (-1.0) 0.0 1.0)%float.
Proof.
  destruct (C10_vertex_shaders_agree 2 ltac:(lia)) as (Ha0 & Hmono & _).
  split; [exact Ha0|exact Hmono].
Defined.


(** * Further properties of the shaders *)

(** ** What one fragment does to an image *)

Section fragment_facts.
Import GLSL.

Lemma width_imageStore (img : uimage2D.t) (P : ivec2.t) (data : uvec4.t) :
  width (imageStore img P data) = width img.
Proof. unfold imageStore. now destruct (inside img P). Qed.

Lemma height_imageStore (img : uimage2D.t) (P : ivec2.t) (data : uvec4.t) :
  height (imageStore img P data) = height img.
Proof. unfold imageStore. now destruct (inside img P). Qed.

(** A store outside the grid is discarded. *)
Lemma imageStore_outside (img : uimage2D.t) (P : ivec2.t) (data : uvec4.t) :
  inside img P = false -> imageStore img P data = img.
Proof. intros Hout. unfold imageStore. now rewrite Hout. Qed.

(** The later of two stores to one texel wins. *)
Lemma imageStore_imageStore (img : uimage2D.t) (P : ivec2.t) (data data' : uvec4.t) :
  imageStore (imageStore img P data) P data' = imageStore img P data'.
Proof.
  destruct (inside img P) eqn:Hin;
    [|now rewrite !imageStore_outside by (now rewrite ?imageStore_outside)].
  unfold imageStore at 1.
  rewrite inside_imageStore, width_imageStore, height_imageStore, Hin.
  unfold imageStore. rewrite Hin. cbn.
  now rewrite insert_insert_eq.
Qed.

(** Stores to two different texels can be swapped. *)
Lemma imageStore_commute (img : uimage2D.t) (P Q : ivec2.t) (data data' : uvec4.t) :
  P <> Q ->
  imageStore (imageStore img P data) Q data' = imageStore (imageStore img Q data') P data.
Proof.
  intros Hne.
  destruct (inside img P) eqn:HP;
    [|now rewrite !(imageStore_outside _ P) by (now rewrite ?inside_imageStore)].
  destruct (inside img Q) eqn:HQ;
    [|now rewrite !(imageStore_outside _ Q) by (now rewrite ?inside_imageStore)].
  unfold imageStore at 1 3.
  rewrite !inside_imageStore, !width_imageStore, !height_imageStore, HP, HQ.
  unfold imageStore. rewrite HP, HQ. cbn.
  f_equal. apply insert_insert_ne.
  intros Heq. apply Hne. destruct P, Q. cbn in Heq. congruence.
Qed.

Lemma SP_main_stored (u : SP.uniforms) (vramImage : uimage2D.t) (P : ivec2.t) (colour : ivec3.t) :
  SP.stores u P (imageLoad vramImage P) = true ->
  SP.main u vramImage P colour =
  imageStore vramImage P (SP.texPixel u P colour (imageLoad vramImage P)).
Proof. intros Hs. unfold SP.main. now rewrite Hs. Qed.

Lemma SP_main_dropped (u : SP.uniforms) (vramImage : uimage2D.t) (P : ivec2.t) (colour : ivec3.t) :
  SP.stores u P (imageLoad vramImage P) = false ->
  SP.main u vramImage P colour = vramImage.
Proof. intros Hs. unfold SP.main. now rewrite Hs. Qed.

Lemma G80_main_stored (v : G80.uniforms) (tempDrawImage vramImage : uimage2D.t) (P : ivec2.t) :
  G80.stores v (imageLoad vramImage P) = true ->
  G80.main v tempDrawImage vramImage P =
  imageStore vramImage P (G80.tempDrawPixel v tempDrawImage P).
Proof. intros Hs. unfold G80.main. now rewrite Hs. Qed.

Lemma G80_main_dropped (v : G80.uniforms) (tempDrawImage vramImage : uimage2D.t) (P : ivec2.t) :
  G80.stores v (imageLoad vramImage P) = false ->
  G80.main v tempDrawImage vramImage P = vramImage.
Proof. intros Hs. unfold G80.main. now rewrite Hs. Qed.

(** Either shader, seen from any other texel, has done nothing. *)
Lemma SP_main_other (u : SP.uniforms) (vramImage : uimage2D.t) (P Q : ivec2.t) (colour : ivec3.t) :
  P <> Q -> imageLoad (SP.main u vramImage P colour) Q = imageLoad vramImage Q.
Proof.
  intros Hne. unfold SP.main.
  destruct (SP.stores u P _); [now apply imageLoad_imageStore_other|reflexivity].
Qed.

Lemma G80_main_other (v : G80.uniforms) (tempDrawImage vramImage : uimage2D.t) (P Q : ivec2.t) :
  P <> Q -> imageLoad (G80.main v tempDrawImage vramImage P) Q = imageLoad vramImage Q.
Proof.
  intros Hne. unfold G80.main.
  destruct (G80.stores v _); [now apply imageLoad_imageStore_other|reflexivity].
Qed.

Lemma inside_SP_main (u : SP.uniforms) (vramImage : uimage2D.t) (P Q : ivec2.t) (colour : ivec3.t) :
  inside (SP.main u vramImage P colour) Q = inside vramImage Q.
Proof.
  unfold SP.main.
  destruct (SP.stores u P _); [apply inside_imageStore|reflexivity].
Qed.

Lemma inside_G80_main (v : G80.uniforms) (tempDrawImage vramImage : uimage2D.t) (P Q : ivec2.t) :
  inside (G80.main v tempDrawImage vramImage P) Q = inside vramImage Q.
Proof.
  unfold G80.main.
  destruct (G80.stores v _); [apply inside_imageStore|reflexivity].
Qed.

(** The two example images hold 8-bit texels only. *)
Lemma Examples_vram_wf : wf Examples.vram.
Proof.
  intros k p. unfold Examples.vram; cbn.
  rewrite lookup_insert. case_decide; [|now rewrite lookup_empty].
  intros [= <-]. unfold uvec4.fits8; cbn; lia.
Qed.

Lemma Examples_temp_wf : wf Examples.temp.
Proof.
  intros k p. unfold Examples.temp; cbn.
  rewrite lookup_insert. case_decide; [intros [= <-]; unfold uvec4.fits8; cbn; lia|].
  rewrite lookup_insert. case_decide; [|now rewrite lookup_empty].
  intros [= <-]. unfold uvec4.fits8; cbn; lia.
Qed.
End fragment_facts.

(** ** The shaded-polygon fragment shader *)

(** X1.  A fragment of the polygon shader touches its own texel only: the
    extent of the image is kept and every other texel reads as before. *)
Theorem X1_shaded_fragment_frame
    (u : SP.uniforms) (vramImage : uimage2D.t) (P : ivec2.t) (colour : ivec3.t) :
  width (SP.main u vramImage P colour) = width vramImage /\
  height (SP.main u vramImage P colour) = height vramImage /\
  (forall Q, Q <> P ->
     imageLoad (SP.main u vramImage P colour) Q = imageLoad vramImage Q).
Proof.
  unfold SP.main at 1 2.
  destruct (SP.stores u P _);
    rewrite ?width_imageStore, ?height_imageStore;
    (split; [reflexivity|split; [reflexivity|]]);
    intros Q Hne; apply SP_main_other; congruence.
Qed.

Lemma X1_shaded_fragment_frame_witness :
  imageLoad (SP.main (Examples.area 0 0 0 0 0) Examples.vram (ivec2.mk 12 60) Examples.grey)
            (ivec2.mk 15 75) = uvec4.mk 4 5 6 1.
Proof.
  destruct (X1_shaded_fragment_frame (Examples.area 0 0 0 0 0) Examples.vram
              (ivec2.mk 12 60) Examples.grey) as (_ & _ & Hframe).
  rewrite Hframe by congruence. reflexivity.
Defined.

(** X2.  Whatever the colour, the coordinate and the VRAM contents, the
    pixel that the polygon shader computes has colour channels of 0..31
    and a mask component that is 1 when [setMask] is 1 and 0 otherwise (it
    is never taken over from VRAM); so a fragment keeps an image of 8-bit
    texels an image of 8-bit texels. *)
Theorem X2_shaded_pixel_format
    (u : SP.uniforms) (vramImage : uimage2D.t) (P : ivec2.t) (colour : ivec3.t)
    (vramPixel : uvec4.t) :
  (let written := SP.texPixel u P colour vramPixel in
   0 <= uvec4.r written <= 31 /\
   0 <= uvec4.g written <= 31 /\
   0 <= uvec4.b written <= 31 /\
   uvec4.a written = (if SP.setMask u =? 1 then 1 else 0)) /\
  (wf vramImage -> wf (SP.main u vramImage P colour)).
Proof.
  split; [|apply main_wf].
  cbn zeta. rewrite texPixel_channels. cbn.
  repeat split; apply outgoing_range, incoming_range.
Qed.

Lemma X2_shaded_pixel_format_witness :
  wf (SP.main (Examples.area 1 1 2 1 0) Examples.vram (ivec2.mk 15 75) Examples.grey).
Proof.
  apply (X2_shaded_pixel_format (Examples.area 1 1 2 1 0) Examples.vram (ivec2.mk 15 75)
           Examples.grey (uvec4.mk 0 0 0 0)).
  apply Examples_vram_wf.
Defined.

(** X3.  Mask protection composes.  A fragment that the polygon shader
    stores inside the image with [setMask] = 1 leaves a mask component of 1
    at its texel; any later fragment there with mask-check enabled, from
    the polygon shader or from the copy shader, changes nothing. *)
Theorem X3_shaded_mask_protects
    (u u' : SP.uniforms) (v' : G80.uniforms) (vramImage tempDrawImage : uimage2D.t)
    (P : ivec2.t) (colour colour' : ivec3.t) :
  SP.setMask u = 1 ->
  SP.stores u P (imageLoad vramImage P) = true ->
  inside vramImage P = true ->
  let drawn := SP.main u vramImage P colour in
  uvec4.a (imageLoad drawn P) = 1 /\
  (SP.checkMask u' = 1 -> SP.main u' drawn P colour' = drawn) /\
  (G80.checkMask v' = 1 -> G80.main v' tempDrawImage drawn P = drawn).
Proof.
  intros Hset Hstored Hin drawn.
  assert (Hmask : uvec4.a (imageLoad drawn P) = 1).
  { subst drawn. rewrite SP_main_stored by exact Hstored.
    rewrite imageLoad_imageStore by exact Hin.
    rewrite texPixel_channels. cbn. now rewrite Hset. }
  split; [exact Hmask|]. split.
  - intros Hcheck. apply SP_main_dropped.
    unfold SP.stores. now rewrite Hcheck, Hmask.
  - intros Hcheck. apply G80_main_dropped.
    unfold G80.stores. now rewrite Hcheck, Hmask.
Qed.

Lemma X3_shaded_mask_protects_witness :
  let drawn := SP.main (Examples.area 0 0 0 1 0) Examples.white_vram
                       (ivec2.mk 15 75) Examples.grey in
  SP.main (Examples.area 0 0 0 0 1) drawn (ivec2.mk 15 75) Examples.white = drawn /\
  G80.main (G80.mk_uniforms 0 0 0 1) Examples.temp drawn (ivec2.mk 15 75) = drawn.
Proof.
  intros drawn.
  destruct (X3_shaded_mask_protects (Examples.area 0 0 0 1 0) (Examples.area 0 0 0 0 1)
              (G80.mk_uniforms 0 0 0 1) Examples.white_vram Examples.temp
              (ivec2.mk 15 75) Examples.grey Examples.white
              eq_refl eq_refl eq_refl) as (_ & Hpoly & Hcopy).
  split; [apply Hpoly; reflexivity|apply Hcopy; reflexivity].
Defined.

(** Without semi-transparency the computed pixel does not depend on what
    VRAM holds. *)
Lemma texPixel_opaque (u : SP.uniforms) (P : ivec2.t) (colour : ivec3.t)
    (vramPixel vramPixel' : uvec4.t) :
  SP.semiTransparencyEnabled u <> 1 ->
  SP.texPixel u P colour vramPixel = SP.texPixel u P colour vramPixel'.
Proof.
  intros Hoff. rewrite !texPixel_channels. unfold SP.outgoing.
  apply Z.eqb_neq in Hoff. now rewrite Hoff.
Qed.

(** X4.  Drawing an opaque fragment twice is drawing it once: with
    semi-transparency disabled, a second run of the polygon shader with the
    same uniforms, coordinate and colour leaves the image of the first run
    as it is, whatever the mask settings. *)
Theorem X4_shaded_opaque_idempotent
    (u : SP.uniforms) (vramImage : uimage2D.t) (P : ivec2.t) (colour : ivec3.t) :
  SP.semiTransparencyEnabled u <> 1 ->
  SP.main u (SP.main u vramImage P colour) P colour = SP.main u vramImage P colour.
Proof.
  intros Hoff.
  destruct (SP.stores u P (imageLoad vramImage P)) eqn:Hfirst;
    [|now rewrite !SP_main_dropped by (now rewrite ?SP_main_dropped)].
  rewrite (SP_main_stored u vramImage) by exact Hfirst.
  set (px := SP.texPixel u P colour (imageLoad vramImage P)).
  destruct (SP.stores u P (imageLoad (imageStore vramImage P px) P)) eqn:Hsecond;
    [|now apply SP_main_dropped].
  rewrite SP_main_stored by exact Hsecond.
  rewrite imageStore_imageStore. f_equal.
  now apply texPixel_opaque.
Qed.

Lemma X4_shaded_opaque_idempotent_witness :
  SP.main (Examples.area 1 0 0 0 1)
          (SP.main (Examples.area 1 0 0 0 1) Examples.white_vram (ivec2.mk 15 75) Examples.grey)
          (ivec2.mk 15 75) Examples.grey
  = SP.main (Examples.area 1 0 0 0 1) Examples.white_vram (ivec2.mk 15 75) Examples.grey.
Proof.
  apply (X4_shaded_opaque_idempotent (Examples.area 1 0 0 0 1) Examples.white_vram
           (ivec2.mk 15 75) Examples.grey).
  cbn. lia.
Defined.

(** X5.  Fragments at different coordinates do not interfere: two runs of
    the polygon shader, with any uniforms and colours, give the same image
    in either order. *)
Theorem X5_shaded_fragments_commute
    (u u' : SP.uniforms) (vramImage : uimage2D.t) (P Q : ivec2.t) (colour colour' : ivec3.t) :
  P <> Q ->
  SP.main u' (SP.main u vramImage P colour) Q colour' =
  SP.main u (SP.main u' vramImage Q colour') P colour.
Proof.
  intros Hne.
  assert (Hne' : Q <> P) by congruence.
  unfold SP.main at 1 3.
  rewrite (SP_main_other u vramImage P Q colour Hne).
  rewrite (SP_main_other u' vramImage Q P colour' Hne').
  destruct (SP.stores u' Q (imageLoad vramImage Q)) eqn:HQ,
           (SP.stores u P (imageLoad vramImage P)) eqn:HP.
  - rewrite (SP_main_stored u vramImage P) by exact HP.
    rewrite (SP_main_stored u' vramImage Q) by exact HQ.
    now apply imageStore_commute.
  - now rewrite (SP_main_dropped u vramImage P), (SP_main_stored u' vramImage Q).
  - now rewrite (SP_main_stored u vramImage P), (SP_main_dropped u' vramImage Q).
  - now rewrite (SP_main_dropped u vramImage P), (SP_main_dropped u' vramImage Q).
Qed.

Lemma X5_shaded_fragments_commute_witness :
  SP.main (Examples.area 0 1 1 0 0)
          (SP.main (Examples.area 1 0 0 1 0) Examples.vram (ivec2.mk 12 60) Examples.grey)
          (ivec2.mk 15 75) Examples.white
  = SP.main (Examples.area 1 0 0 1 0)
            (SP.main (Examples.area 0 1 1 0 0) Examples.vram (ivec2.mk 15 75) Examples.white)
            (ivec2.mk 12 60) Examples.grey.
Proof.
  apply (X5_shaded_fragments_commute (Examples.area 1 0 0 1 0) (Examples.area 0 1 1 0 0)
           Examples.vram (ivec2.mk 12 60) (ivec2.mk 15 75) Examples.grey Examples.white).
  congruence.
Defined.

(** ** Colour arithmetic of the polygon shader *)

Section colour_facts.
Import GLSL.

(** An [int] stored into a [uint] and read back is the same [int]. *)
Lemma to_int_to_uint (c : Z) : - 2 ^ 31 <= c < 2 ^ 31 -> to_int (to_uint c) = c.
Proof.
  intros Hc. unfold to_int, to_uint.
  Z.div_mod_to_equations. lia.
Qed.

Lemma ditherArray_range (column row : Z) : -4 <= SP.ditherArray column row <= 3.
Proof.
  unfold SP.ditherArray.
  repeat match goal with
         | |- context [match ?z with _ => _ end] => destruct z
         end; lia.
Qed.

(** The dither block on a colour that does not overflow on the way. *)
Lemma ditherChannel_eq (P : ivec2.t) (c : Z) :
  0 <= ivec2.x P < 2 ^ 31 -> 0 <= ivec2.y P <= 511 ->
  - 2 ^ 31 + 4 <= c < 2 ^ 31 - 4 ->
  SP.ditherChannel P (to_uint c) =
  Z.max 0 (Z.min 255 (c + SP.ditherArray (ivec2.x P mod 4) ((511 - ivec2.y P) mod 4))).
Proof.
  intros Hx Hy Hc.
  unfold SP.ditherChannel, SP.ditherColumn, SP.ditherRow.
  rewrite to_int_to_uint by lia.
  rewrite (int_sub_small 511) by lia.
  rewrite !int_mod_nonneg by lia.
  pose proof (ditherArray_range (ivec2.x P mod 4) ((511 - ivec2.y P) mod 4)) as Hoff.
  set (offset := SP.ditherArray _ _) in *.
  rewrite int_add_small by lia.
  destruct (Z.ltb_spec (c + offset) 0); [rewrite to_uint_small; lia|].
  destruct (c + offset >? 255) eqn:Hgt; rewrite to_uint_small; lia.
Qed.

Lemma quantize_eq (c : Z) : 0 <= c -> SP.quantize c = Z.min 31 (c / 8).
Proof.
  intros Hc. unfold SP.quantize, uint_shr.
  rewrite Z.shiftr_div_pow2 by lia. change (2 ^ 3) with 8.
  destruct (c / 8 >? 31) eqn:Hgt; lia.
Qed.

Lemma blend_default (mode old new : Z) :
  mode < 0 \/ 3 < mode -> SP.blend mode old new = new.
Proof.
  intros Hmode. unfold SP.blend.
  destruct mode as [|p|p]; [lia| |reflexivity].
  destruct p as [[p|p|]|[p|p|]|]; try reflexivity; lia.
Qed.

Lemma semiTransparent_formulas (B F : Z) :
  0 <= B <= 31 -> 0 <= F <= 31 ->
  SP.semiTransparent 0 B F = B / 2 + F / 2 /\
  SP.semiTransparent 1 B F = Z.min 31 (B + F) /\
  SP.semiTransparent 2 B F = Z.max 0 (B - F) /\
  SP.semiTransparent 3 B F = Z.min 31 (B + F / 4).
Proof.
  intros HB HF. unfold SP.semiTransparent.
  rewrite (to_int_small B), (to_int_small F) by lia.
  rewrite !saturate_clamp. unfold SP.blend.
  assert (HB2 : 0 <= B / 2 <= 15) by (Z.div_mod_to_equations; lia).
  assert (HF2 : 0 <= F / 2 <= 15) by (Z.div_mod_to_equations; lia).
  assert (HF4 : 0 <= F / 4 <= 7) by (Z.div_mod_to_equations; lia).
  rewrite !int_div_nonneg by lia.
  rewrite !int_add_small, int_sub_small by lia.
  repeat split; rewrite to_uint_small; lia.
Qed.
End colour_facts.

(** X6.  Dithering moves a quantized channel by one step at most: for a
    fragment with 0 <= x and 0 <= y <= 511 and an 8-bit colour c, the
    5-bit value that leaves the dither and quantization stages differs from
    the undithered c >> 3 by no more than 1. *)
Theorem X6_dither_within_one_step (u : SP.uniforms) (P : ivec2.t) (c : Z) :
  SP.dither u = 1 ->
  0 <= ivec2.x P < 2 ^ 31 -> 0 <= ivec2.y P <= 511 ->
  0 <= c <= 255 ->
  Z.shiftr c 3 - 1 <= SP.incoming u P c <= Z.shiftr c 3 + 1.
Proof.
  intros Hon Hx Hy Hc. unfold SP.incoming. rewrite Hon. cbn.
  rewrite ditherChannel_eq by lia.
  pose proof (ditherArray_range (ivec2.x P mod 4) ((511 - ivec2.y P) mod 4)) as Hoff.
  set (offset := SP.ditherArray _ _) in *.
  rewrite quantize_eq by lia.
  rewrite Z.shiftr_div_pow2 by lia. change (2 ^ 3) with 8.
  set (d := Z.max 0 (Z.min 255 (c + offset))).
  assert (Hd : c - 4 <= d <= c + 3 /\ 0 <= d <= 255) by (subst d; lia).
  clearbody d. Z.div_mod_to_equations. lia.
Qed.

Lemma X6_dither_within_one_step_witness :
  Z.shiftr 130 3 - 1 <= SP.incoming (Examples.area 1 0 0 0 0) (ivec2.mk 0 0) 130
                     <= Z.shiftr 130 3 + 1.
Proof.
  apply (X6_dither_within_one_step (Examples.area 1 0 0 0 0) (ivec2.mk 0 0) 130);
    cbn; lia.
Defined.

(** X7.  A brighter colour never comes out darker.  At one coordinate
    (0 <= x, 0 <= y <= 511) and with the same uniforms, dithering on or
    off, the 5-bit channel that enters the semi-transparency block is
    monotonic in the non-negative incoming colour. *)
Theorem X7_incoming_monotone (u : SP.uniforms) (P : ivec2.t) (c d : Z) :
  0 <= ivec2.x P < 2 ^ 31 -> 0 <= ivec2.y P <= 511 ->
  0 <= c <= d -> d < 2 ^ 31 - 4 ->
  SP.incoming u P c <= SP.incoming u P d.
Proof.
  intros Hx Hy Hcd Hd. unfold SP.incoming.
  destruct (SP.dither u =? 1).
  - rewrite !ditherChannel_eq by lia.
    set (offset := SP.ditherArray _ _).
    rewrite !quantize_eq by lia.
    apply Z.min_le_compat_l, Z.div_le_mono; lia.
  - rewrite !to_uint_small by lia.
    rewrite !quantize_eq by lia.
    apply Z.min_le_compat_l, Z.div_le_mono; lia.
Qed.

Lemma X7_incoming_monotone_witness :
  SP.incoming (Examples.area 1 0 0 0 0) (ivec2.mk 5 510) 1
  <= SP.incoming (Examples.area 1 0 0 0 0) (ivec2.mk 5 510) 300.
Proof.
  apply (X7_incoming_monotone (Examples.area 1 0 0 0 0) (ivec2.mk 5 510) 1 300);
    cbn; lia.
Defined.

(** X8.  Colours outside 0..255.  A colour of 259 or more is stored as 31
    with dithering on or off.  A negative colour is stored as 0 when
    dithering is on (the dither clamp works on the signed value) and as 31
    when it is off (the value wraps to a large [uint] before the shift). *)
Theorem X8_out_of_range_colours (u : SP.uniforms) (P : ivec2.t) (c : Z) :
  0 <= ivec2.x P < 2 ^ 31 -> 0 <= ivec2.y P <= 511 ->
  (259 <= c < 2 ^ 31 - 4 -> SP.incoming u P c = 31) /\
  (- 2 ^ 31 + 4 <= c <= -4 ->
   SP.incoming u P c = (if SP.dither u =? 1 then 0 else 31)).
Proof.
  intros Hx Hy.
  pose proof (ditherArray_range (ivec2.x P mod 4) ((511 - ivec2.y P) mod 4)) as Hoff.
  split; intros Hc; unfold SP.incoming; destruct (SP.dither u =? 1).
  - rewrite ditherChannel_eq by lia.
    set (offset := SP.ditherArray _ _) in *.
    replace (Z.max 0 (Z.min 255 (c + offset))) with 255 by lia.
    reflexivity.
  - rewrite to_uint_small by lia. rewrite quantize_eq by lia.
    Z.div_mod_to_equations. lia.
  - rewrite ditherChannel_eq by lia.
    set (offset := SP.ditherArray _ _) in *.
    replace (Z.max 0 (Z.min 255 (c + offset))) with 0 by lia.
    reflexivity.
  - assert (Hwrap : GLSL.to_uint c = c + 2 ^ 32).
    { unfold GLSL.to_uint. Z.div_mod_to_equations. lia. }
    rewrite Hwrap. rewrite quantize_eq by lia.
    Z.div_mod_to_equations. lia.
Qed.

Lemma X8_out_of_range_colours_witness :
  SP.incoming (Examples.area 0 0 0 0 0) (ivec2.mk 0 0) 300 = 31 /\
  SP.incoming (Examples.area 1 0 0 0 0) (ivec2.mk 0 0) (-5) = 0 /\
  SP.incoming (Examples.area 0 0 0 0 0) (ivec2.mk 0 0) (-5) = 31.
Proof.
  destruct (X8_out_of_range_colours (Examples.area 0 0 0 0 0) (ivec2.mk 0 0) 300
              ltac:(cbn; lia) ltac:(cbn; lia)) as [Hhigh _].
  destruct (X8_out_of_range_colours (Examples.area 1 0 0 0 0) (ivec2.mk 0 0) (-5)
              ltac:(cbn; lia) ltac:(cbn; lia)) as [_ Hon].
  destruct (X8_out_of_range_colours (Examples.area 0 0 0 0 0) (ivec2.mk 0 0) (-5)
              ltac:(cbn; lia) ltac:(cbn; lia)) as [_ Hoff].
  split; [apply Hhigh; lia|].
  split; [rewrite Hon by lia; reflexivity|rewrite Hoff by lia; reflexivity].
Defined.

(** X9.  The dither pattern repeats every four pixels in both directions:
    the dither block gives the same value at (x + 4, y) and at (x, y - 4)
    as at (x, y), for every channel value. *)
Theorem X9_dither_period (P : ivec2.t) (c : Z) :
  0 <= ivec2.x P < 2 ^ 31 - 4 -> 4 <= ivec2.y P <= 511 ->
  SP.ditherChannel (ivec2.mk (ivec2.x P + 4) (ivec2.y P)) c = SP.ditherChannel P c /\
  SP.ditherChannel (ivec2.mk (ivec2.x P) (ivec2.y P - 4)) c = SP.ditherChannel P c.
Proof.
  intros Hx Hy.
  assert (Hcol : SP.ditherColumn (ivec2.mk (ivec2.x P + 4) (ivec2.y P)) = SP.ditherColumn P).
  { unfold SP.ditherColumn. cbn. rewrite !int_mod_nonneg by lia.
    replace (ivec2.x P + 4) with (ivec2.x P + 1 * 4) by lia.
    apply Z.mod_add. lia. }
  assert (Hrow : SP.ditherRow (ivec2.mk (ivec2.x P) (ivec2.y P - 4)) = SP.ditherRow P).
  { unfold SP.ditherRow. cbn. rewrite !int_sub_small by lia.
    rewrite !int_mod_nonneg by lia.
    replace (511 - (ivec2.y P - 4)) with (511 - ivec2.y P + 1 * 4) by lia.
    apply Z.mod_add. lia. }
  unfold SP.ditherChannel. rewrite Hcol, Hrow.
  split; reflexivity.
Qed.

Lemma X9_dither_period_witness :
  SP.ditherChannel (ivec2.mk 9 75) 130 = SP.ditherChannel (ivec2.mk 5 75) 130 /\
  SP.ditherChannel (ivec2.mk 5 71) 130 = SP.ditherChannel (ivec2.mk 5 75) 130.
Proof.
  apply (X9_dither_period (ivec2.mk 5 75) 130); cbn; lia.
Defined.

(** X10.  The mode switch has no default.  With semi-transparency enabled
    and a mode outside 0..3 the back value is ignored: every colour channel
    of the computed pixel is the quantized incoming channel, as if
    semi-transparency were disabled. *)
Theorem X10_unknown_mode_is_opaque
    (u : SP.uniforms) (P : ivec2.t) (colour : ivec3.t) (vramPixel : uvec4.t) :
  SP.semiTransparencyEnabled u = 1 ->
  SP.semiTransparencyMode u < 0 \/ 3 < SP.semiTransparencyMode u ->
  SP.texPixel u P colour vramPixel =
  uvec4.mk (SP.incoming u P (ivec3.r colour))
           (SP.incoming u P (ivec3.g colour))
           (SP.incoming u P (ivec3.b colour))
           (if SP.setMask u =? 1 then 1 else 0).
Proof.
  intros Hon Hmode. rewrite texPixel_channels.
  assert (Hsame : forall back c,
             SP.outgoing u back (SP.incoming u P c) = SP.incoming u P c).
  { intros back c. unfold SP.outgoing, SP.semiTransparent. rewrite Hon. cbn.
    rewrite blend_default by exact Hmode.
    pose proof (incoming_range u P c) as Hc.
    rewrite to_int_small by lia.
    rewrite saturate_clamp. rewrite to_uint_small; lia. }
  now rewrite !Hsame.
Qed.

Lemma X10_unknown_mode_is_opaque_witness :
  SP.texPixel (Examples.area 0 1 4 0 0) (ivec2.mk 15 75) Examples.grey (uvec4.mk 31 31 31 0)
  = uvec4.mk 16 16 16 0.
Proof.
  rewrite (X10_unknown_mode_is_opaque (Examples.area 0 1 4 0 0) (ivec2.mk 15 75)
             Examples.grey (uvec4.mk 31 31 31 0) eq_refl ltac:(right; cbn; lia)).
  reflexivity.
Defined.

(** X11.  Which way each blend mode moves a 5-bit back value B under a
    5-bit front value F.  Mode 0 stays between min(B, F) - 1 and
    max(B, F); mode 1 is at least max(B, F); mode 2 is at most B; mode 3
    is between B and B + 7.  A black front (F = 0) leaves B unchanged in
    modes 1, 2 and 3, and halves it in mode 0. *)
Theorem X11_blend_direction (B F : Z) :
  0 <= B <= 31 -> 0 <= F <= 31 ->
  (Z.min B F - 1 <= SP.semiTransparent 0 B F <= Z.max B F) /\
  Z.max B F <= SP.semiTransparent 1 B F /\
  SP.semiTransparent 2 B F <= B /\
  (B <= SP.semiTransparent 3 B F <= B + 7) /\
  (F = 0 ->
   SP.semiTransparent 0 B F = B / 2 /\
   SP.semiTransparent 1 B F = B /\
   SP.semiTransparent 2 B F = B /\
   SP.semiTransparent 3 B F = B).
Proof.
  intros HB HF.
  destruct (semiTransparent_formulas B F HB HF) as (H0 & H1 & H2 & H3).
  rewrite H0, H1, H2, H3.
  repeat split; try (Z.div_mod_to_equations; lia).
  all: subst F; cbn; try lia.
Qed.

Lemma X11_blend_direction_witness :
  SP.semiTransparent 1 20 0 = 20 /\ SP.semiTransparent 0 20 0 = 20 / 2 /\
  SP.semiTransparent 2 10 31 <= 10.
Proof.
  destruct (X11_blend_direction 20 0 ltac:(lia) ltac:(lia)) as (_ & _ & _ & _ & Hblack).
  destruct (X11_blend_direction 10 31 ltac:(lia) ltac:(lia)) as (_ & _ & Hsub & _).
  destruct (Hblack eq_refl) as (Hhalf & Hadd & _).
  split; [exact Hadd|]. split; [exact Hhalf|exact Hsub].
Defined.

(** X12.  A drawing area whose right edge lies left of its left edge, or
    whose top lies below its bottom, is empty: the polygon shader then
    stores nothing, at any coordinate. *)
Theorem X12_empty_drawing_area
    (u : SP.uniforms) (vramImage : uimage2D.t) (P : ivec2.t) (colour : ivec3.t) :
  SP.drawBottomRightX u < SP.drawTopLeftX u \/ SP.drawTopLeftY u < SP.drawBottomRightY u ->
  SP.inDrawingArea u P = false /\ SP.main u vramImage P colour = vramImage.
Proof.
  intros Hempty.
  assert (Hout : SP.inDrawingArea u P = false).
  { destruct (SP.inDrawingArea u P) eqn:Harea; [|reflexivity].
    apply inDrawingArea_bounds in Harea. lia. }
  split; [exact Hout|].
  apply SP_main_dropped. unfold SP.stores. rewrite Hout.
  rewrite andb_false_r. now destruct (SP.checkMask u =? 1).
Qed.

Lemma X12_empty_drawing_area_witness :
  SP.main (SP.mk_uniforms 0 0 0 0 0 20 100 10 50) Examples.vram (ivec2.mk 15 75) Examples.grey
  = Examples.vram.
Proof.
  apply (X12_empty_drawing_area (SP.mk_uniforms 0 0 0 0 0 20 100 10 50) Examples.vram
           (ivec2.mk 15 75) Examples.grey).
  left. cbn. lia.
Defined.

(** ** The VRAM-to-VRAM copy shader, fragment by fragment *)

Lemma ivec2_eq_dec (P Q : ivec2.t) : {P = Q} + {P <> Q}.
Proof. decide equality; apply Z.eq_dec. Qed.

(** X13.  A fragment of the copy shader touches its own texel of VRAM
    only: the extent of the image is kept and every other texel reads as
    before. *)
Theorem X13_copy_fragment_frame
    (v : G80.uniforms) (tempDrawImage vramImage : uimage2D.t) (P : ivec2.t) :
  width (G80.main v tempDrawImage vramImage P) = width vramImage /\
  height (G80.main v tempDrawImage vramImage P) = height vramImage /\
  (forall Q, Q <> P ->
     imageLoad (G80.main v tempDrawImage vramImage P) Q = imageLoad vramImage Q).
Proof.
  unfold G80.main at 1 2.
  destruct (G80.stores v _);
    rewrite ?width_imageStore, ?height_imageStore;
    (split; [reflexivity|split; [reflexivity|]]);
    intros Q Hne; apply G80_main_other; congruence.
Qed.

Lemma X13_copy_fragment_frame_witness :
  imageLoad (G80.main (G80.mk_uniforms 0 0 1 0) Examples.temp Examples.vram (ivec2.mk 5 75))
            (ivec2.mk 15 75) = uvec4.mk 4 5 6 1.
Proof.
  destruct (X13_copy_fragment_frame (G80.mk_uniforms 0 0 1 0) Examples.temp Examples.vram
              (ivec2.mk 5 75)) as (_ & _ & Hframe).
  rewrite Hframe by congruence. reflexivity.
Defined.

(** X14.  What a stored copy fragment leaves in VRAM.  When the fragment
    is stored at a coordinate P inside VRAM, the texel at P afterwards has
    the colour of the temporary image's texel at P less the offset, and a
    mask component of 1 if [setMask] is 1, else that of the source texel.
    A source coordinate outside the temporary image reads as zeros, so the
    texel is then black. *)
Theorem X14_copy_reads_through
    (v : G80.uniforms) (tempDrawImage vramImage : uimage2D.t) (P : ivec2.t) :
  G80.checkMask v <> 1 \/ uvec4.a (imageLoad vramImage P) <> 1 ->
  inside vramImage P = true ->
  let from := G80.tempDrawCoord v P in
  let src := imageLoad tempDrawImage from in
  let copied := imageLoad (G80.main v tempDrawImage vramImage P) P in
  copied = uvec4.mk (uvec4.r src) (uvec4.g src) (uvec4.b src)
                    (if G80.setMask v =? 1 then 1 else uvec4.a src) /\
  (inside tempDrawImage from = false ->
   copied = uvec4.mk 0 0 0 (if G80.setMask v =? 1 then 1 else 0)).
Proof.
  intros Hopen Hin from src copied.
  assert (Hcopied : copied = G80.tempDrawPixel v tempDrawImage P).
  { subst copied. apply stores_iff in Hopen.
    rewrite G80_main_stored by exact Hopen.
    now apply imageLoad_imageStore. }
  rewrite Hcopied, tempDrawPixel_channels. fold from. fold src.
  split; [reflexivity|].
  intros Hout. subst src. unfold imageLoad. now rewrite Hout.
Qed.

Lemma X14_copy_reads_through_witness :
  imageLoad (G80.main (G80.mk_uniforms 10 0 1 0) Examples.temp Examples.vram (ivec2.mk 15 75))
            (ivec2.mk 15 75) = uvec4.mk 1 2 3 1 /\
  imageLoad (G80.main (G80.mk_uniforms 20 0 0 0) Examples.temp Examples.vram (ivec2.mk 15 75))
            (ivec2.mk 15 75) = uvec4.mk 0 0 0 0.
Proof.
  destruct (X14_copy_reads_through (G80.mk_uniforms 10 0 1 0) Examples.temp Examples.vram
              (ivec2.mk 15 75) ltac:(left; cbn; lia) eq_refl) as [Hcopy _].
  destruct (X14_copy_reads_through (G80.mk_uniforms 20 0 0 0) Examples.temp Examples.vram
              (ivec2.mk 15 75) ltac:(left; cbn; lia) eq_refl) as [_ Hblack].
  split; [rewrite Hcopy; reflexivity|].
  rewrite Hblack by reflexivity. reflexivity.
Defined.

(** X15.  The copy shader keeps VRAM an image of 8-bit texels, provided
    the temporary image is one. *)
Theorem X15_copy_keeps_8bit_texels
    (v : G80.uniforms) (tempDrawImage vramImage : uimage2D.t) (P : ivec2.t) :
  wf tempDrawImage -> wf vramImage -> wf (G80.main v tempDrawImage vramImage P).
Proof.
  intros Htemp Hvram. unfold G80.main.
  destruct (G80.stores v _); [|exact Hvram].
  apply imageStore_wf; [exact Hvram|now apply copied_pixel_fits8].
Qed.

Lemma X15_copy_keeps_8bit_texels_witness :
  wf (G80.main (G80.mk_uniforms 10 0 1 0) Examples.temp Examples.vram (ivec2.mk 15 75)).
Proof.
  apply (X15_copy_keeps_8bit_texels (G80.mk_uniforms 10 0 1 0) Examples.temp Examples.vram
           (ivec2.mk 15 75) Examples_temp_wf Examples_vram_wf).
Defined.

(** X16.  Copying an image onto itself with no offset and without
    [setMask] changes no texel that can be read. *)
Theorem X16_copy_onto_itself
    (v : G80.uniforms) (image : uimage2D.t) (P : ivec2.t) :
  G80.xOffset v = 0 -> G80.yOffset v = 0 -> G80.setMask v <> 1 ->
  - 2 ^ 31 <= ivec2.x P < 2 ^ 31 -> - 2 ^ 31 <= ivec2.y P < 2 ^ 31 ->
  forall Q, imageLoad (G80.main v image image P) Q = imageLoad image Q.
Proof.
  intros Hx0 Hy0 Hset Hx Hy Q.
  assert (Hfrom : G80.tempDrawCoord v P = P).
  { unfold G80.tempDrawCoord. cbn. rewrite Hx0, Hy0.
    rewrite !int_sub_small by lia. rewrite !Z.sub_0_r. now destruct P. }
  assert (Hpixel : G80.tempDrawPixel v image P = imageLoad image P).
  { unfold G80.tempDrawPixel. rewrite Hfrom.
    apply Z.eqb_neq in Hset. now rewrite Hset. }
  unfold G80.main. rewrite Hpixel.
  destruct (G80.stores v _); [|reflexivity].
  destruct (inside image P) eqn:Hin; [|now rewrite imageStore_outside].
  destruct (ivec2_eq_dec P Q) as [<-|Hne].
  - now apply imageLoad_imageStore.
  - now apply imageLoad_imageStore_other.
Qed.

Lemma X16_copy_onto_itself_witness :
  imageLoad (G80.main (G80.mk_uniforms 0 0 0 0) Examples.temp Examples.temp (ivec2.mk 5 75))
            (ivec2.mk 5 75) = uvec4.mk 1 2 3 0.
Proof.
  rewrite (X16_copy_onto_itself (G80.mk_uniforms 0 0 0 0) Examples.temp (ivec2.mk 5 75)
             eq_refl eq_refl ltac:(cbn; lia) ltac:(cbn; lia) ltac:(cbn; lia)).
  reflexivity.
Defined.

(** X17.  Copying a fragment twice is copying it once: a second run of
    the copy shader with the same uniforms, temporary image and coordinate
    leaves the image of the first run as it is, whatever the mask
    settings. *)
Theorem X17_copy_idempotent
    (v : G80.uniforms) (tempDrawImage vramImage : uimage2D.t) (P : ivec2.t) :
  G80.main v tempDrawImage (G80.main v tempDrawImage vramImage P) P =
  G80.main v tempDrawImage vramImage P.
Proof.
  destruct (G80.stores v (imageLoad vramImage P)) eqn:Hfirst;
    [|now rewrite !G80_main_dropped by (now rewrite ?G80_main_dropped)].
  rewrite (G80_main_stored v tempDrawImage vramImage) by exact Hfirst.
  set (px := G80.tempDrawPixel v tempDrawImage P).
  destruct (G80.stores v (imageLoad (imageStore vramImage P px) P)) eqn:Hsecond;
    [|now apply G80_main_dropped].
  rewrite G80_main_stored by exact Hsecond.
  apply imageStore_imageStore.
Qed.

(** X18.  Copy fragments at different coordinates do not interfere: two
    runs of the copy shader, with any uniforms and temporary images, give
    the same VRAM in either order; so do a copy fragment and a polygon
    fragment. *)
Theorem X18_copy_fragments_commute
    (v v' : G80.uniforms) (u : SP.uniforms) (tempDrawImage tempDrawImage' vramImage : uimage2D.t)
    (P Q : ivec2.t) (colour : ivec3.t) :
  P <> Q ->
  G80.main v' tempDrawImage' (G80.main v tempDrawImage vramImage P) Q =
  G80.main v tempDrawImage (G80.main v' tempDrawImage' vramImage Q) P /\
  SP.main u (G80.main v tempDrawImage vramImage P) Q colour =
  G80.main v tempDrawImage (SP.main u vramImage Q colour) P.
Proof.
  intros Hne.
  assert (Hne' : Q <> P) by congruence.
  split.
  - unfold G80.main at 1 3.
    rewrite (G80_main_other v tempDrawImage vramImage P Q Hne).
    rewrite (G80_main_other v' tempDrawImage' vramImage Q P Hne').
    destruct (G80.stores v' (imageLoad vramImage Q)) eqn:HQ,
             (G80.stores v (imageLoad vramImage P)) eqn:HP.
    + rewrite (G80_main_stored v tempDrawImage vramImage P) by exact HP.
      rewrite (G80_main_stored v' tempDrawImage' vramImage Q) by exact HQ.
      now apply imageStore_commute.
    + now rewrite (G80_main_dropped v tempDrawImage vramImage P),
                  (G80_main_stored v' tempDrawImage' vramImage Q).
    + now rewrite (G80_main_stored v tempDrawImage vramImage P),
                  (G80_main_dropped v' tempDrawImage' vramImage Q).
    + now rewrite (G80_main_dropped v tempDrawImage vramImage P),
                  (G80_main_dropped v' tempDrawImage' vramImage Q).
  - pose proof (G80_main_other v tempDrawImage vramImage P Q Hne) as HloadQ.
    pose proof (SP_main_other u vramImage Q P colour Hne') as HloadP.
    destruct (SP.stores u Q (imageLoad vramImage Q)) eqn:HQ,
             (G80.stores v (imageLoad vramImage P)) eqn:HP.
    + rewrite (SP_main_stored u (G80.main _ _ _ _)) by (now rewrite HloadQ).
      rewrite (G80_main_stored v _ (SP.main _ _ _ _)) by (now rewrite HloadP).
      rewrite HloadQ.
      rewrite (G80_main_stored v tempDrawImage vramImage P) by exact HP.
      rewrite (SP_main_stored u vramImage Q) by exact HQ.
      now apply imageStore_commute.
    + rewrite (SP_main_stored u (G80.main _ _ _ _)) by (now rewrite HloadQ).
      rewrite (G80_main_dropped v _ (SP.main _ _ _ _)) by (now rewrite HloadP).
      rewrite HloadQ.
      now rewrite (G80_main_dropped v tempDrawImage vramImage P),
                  (SP_main_stored u vramImage Q).
    + rewrite (SP_main_dropped u (G80.main _ _ _ _)) by (now rewrite HloadQ).
      rewrite (G80_main_stored v _ (SP.main _ _ _ _)) by (now rewrite HloadP).
      now rewrite (SP_main_dropped u vramImage Q),
                  (G80_main_stored v tempDrawImage vramImage P).
    + rewrite (SP_main_dropped u (G80.main _ _ _ _)) by (now rewrite HloadQ).
      rewrite (G80_main_dropped v _ (SP.main _ _ _ _)) by (now rewrite HloadP).
      now rewrite (G80_main_dropped v tempDrawImage vramImage P),
                  (SP_main_dropped u vramImage Q).
Qed.

Lemma X18_copy_fragments_commute_witness :
  SP.main (Examples.area 1 0 0 0 0)
          (G80.main (G80.mk_uniforms 0 0 1 0) Examples.temp Examples.vram (ivec2.mk 5 75))
          (ivec2.mk 15 75) Examples.grey
  = G80.main (G80.mk_uniforms 0 0 1 0) Examples.temp
             (SP.main (Examples.area 1 0 0 0 0) Examples.vram (ivec2.mk 15 75) Examples.grey)
             (ivec2.mk 5 75).
Proof.
  apply (X18_copy_fragments_commute (G80.mk_uniforms 0 0 1 0) (G80.mk_uniforms 0 0 0 0)
           (Examples.area 1 0 0 0 0) Examples.temp Examples.temp Examples.vram
           (ivec2.mk 5 75) (ivec2.mk 15 75) Examples.grey).
  congruence.
Defined.

(** X19.  Mask protection composes for the copy as well.  A copy fragment
    stored inside VRAM with [setMask] = 1 leaves a mask component of 1 at
    its texel; any later fragment there with mask-check enabled, from the
    copy shader or from the polygon shader, changes nothing. *)
Theorem X19_copy_mask_protects
    (v v' : G80.uniforms) (u' : SP.uniforms) (tempDrawImage tempDrawImage' vramImage : uimage2D.t)
    (P : ivec2.t) (colour' : ivec3.t) :
  G80.setMask v = 1 ->
  G80.checkMask v <> 1 \/ uvec4.a (imageLoad vramImage P) <> 1 ->
  inside vramImage P = true ->
  let copied := G80.main v tempDrawImage vramImage P in
  uvec4.a (imageLoad copied P) = 1 /\
  (G80.checkMask v' = 1 -> G80.main v' tempDrawImage' copied P = copied) /\
  (SP.checkMask u' = 1 -> SP.main u' copied P colour' = copied).
Proof.
  intros Hset Hopen Hin copied.
  assert (Hmask : uvec4.a (imageLoad copied P) = 1).
  { subst copied. apply stores_iff in Hopen.
    rewrite G80_main_stored by exact Hopen.
    rewrite imageLoad_imageStore by exact Hin.
    rewrite tempDrawPixel_channels. cbn. now rewrite Hset. }
  split; [exact Hmask|]. split.
  - intros Hcheck. apply G80_main_dropped.
    unfold G80.stores. now rewrite Hcheck, Hmask.
  - intros Hcheck. apply SP_main_dropped.
    unfold SP.stores. now rewrite Hcheck, Hmask.
Qed.

Lemma X19_copy_mask_protects_witness :
  let copied := G80.main (G80.mk_uniforms 10 0 1 0) Examples.temp Examples.vram
                         (ivec2.mk 15 75) in
  G80.main (G80.mk_uniforms 0 0 0 1) Examples.temp copied (ivec2.mk 15 75) = copied /\
  SP.main (Examples.area 0 0 0 0 1) copied (ivec2.mk 15 75) Examples.white = copied.
Proof.
  intros copied.
  destruct (X19_copy_mask_protects (G80.mk_uniforms 10 0 1 0) (G80.mk_uniforms 0 0 0 1)
              (Examples.area 0 0 0 0 1) Examples.temp Examples.temp Examples.vram
              (ivec2.mk 15 75) Examples.white
              eq_refl ltac:(left; cbn; lia) eq_refl) as (_ & Hcopy & Hpoly).
  split; [apply Hcopy; reflexivity|apply Hpoly; reflexivity].
Defined.

(** X20.  An opaque, undithered fragment from end to end.  With dithering
    and semi-transparency disabled, a stored fragment inside VRAM with an
    8-bit colour (r, g, b) leaves the texel (r / 8, g / 8, b / 8) with a
    mask component of 1 if [setMask] is 1 and 0 otherwise. *)
Theorem X20_opaque_draw_reads_back
    (u : SP.uniforms) (vramImage : uimage2D.t) (P : ivec2.t) (colour : ivec3.t) :
  SP.dither u <> 1 -> SP.semiTransparencyEnabled u <> 1 ->
  SP.stores u P (imageLoad vramImage P) = true ->
  inside vramImage P = true ->
  0 <= ivec3.r colour <= 255 -> 0 <= ivec3.g colour <= 255 -> 0 <= ivec3.b colour <= 255 ->
  imageLoad (SP.main u vramImage P colour) P =
  uvec4.mk (ivec3.r colour / 8) (ivec3.g colour / 8) (ivec3.b colour / 8)
           (if SP.setMask u =? 1 then 1 else 0).
Proof.
  intros Hdither Hblend Hstored Hin Hr Hg Hb.
  rewrite SP_main_stored by exact Hstored.
  rewrite imageLoad_imageStore by exact Hin.
  rewrite texPixel_channels. unfold SP.outgoing, SP.incoming.
  apply Z.eqb_neq in Hdither, Hblend. rewrite Hdither, Hblend. cbn zeta.
  assert (Hq : forall c, 0 <= c <= 255 -> SP.quantize (GLSL.to_uint c) = c / 8).
  { intros c Hc. rewrite to_uint_small by lia. rewrite quantize_eq by lia.
    Z.div_mod_to_equations. lia. }
  now rewrite !Hq.
Qed.

Lemma X20_opaque_draw_reads_back_witness :
  imageLoad (SP.main (Examples.area 0 0 0 1 1) Examples.white_vram (ivec2.mk 15 75) Examples.grey)
            (ivec2.mk 15 75) = uvec4.mk (130 / 8) (130 / 8) (130 / 8) 1.
Proof.
  apply (X20_opaque_draw_reads_back (Examples.area 0 0 0 1 1) Examples.white_vram
           (ivec2.mk 15 75) Examples.grey);
    try reflexivity; cbn; lia.
Defined.
